(** * data-diff: the Athena adapter and the JSON report projector

    A shallow embedding of [data_diff/databases/athena.py] (the Athena
    dialect, its cursor helper and its table-path normalisation) together
    with the report projector exercised by [tests/test_format.py].

    Python values are modelled as follows: [str] is [string] (one [ascii]
    per character; the text handled is ASCII, see [Py.isascii]), [int] is
    [Z], a tuple or list of strings is
    [list string], an insertion-ordered [dict] is an association list, and
    a raised exception is the [Raise] case of [result]. *)

From Stdlib Require Import ZArith String Ascii List Bool Lia DecimalString.
From stdpp Require Import base list.

Local Open Scope string_scope.
Local Open Scope Z_scope.

(** ** Exceptions and the error monad *)

Inductive exn : Type :=
| ValueError (msg : string)
| IndexError
| AttributeError
| TypeError (msg : string)
| RecursionError.

Inductive result (A : Type) : Type :=
| Ok (a : A)
| Raise (e : exn).
Arguments Ok {A} a.
Arguments Raise {A} e.

Definition rbind {A B : Type} (k : A -> result B) (r : result A) : result B :=
  match r with
  | Ok a => k a
  | Raise e => Raise e
  end.

#[global] Instance result_mbind : MBind result := @rbind.
#[global] Instance result_mret : MRet result := @Ok.

(** ** Python string primitives *)

Module Py.

(** [str(n)] and the [{n}] placeholder of an f-string, for an [int]. *)
Definition str_of_int (n : Z) : string :=
  NilZero.string_of_int (Z.to_int n).

(** [sep.join(parts)] *)
Definition join (sep : string) (parts : list string) : string :=
  String.concat sep parts.

(** [s.split(sep)] for a one-character separator: empty pieces are kept
    and the result always has at least one element. *)
Fixpoint split (sep : ascii) (s : string) : list string :=
  match s with
  | EmptyString => [EmptyString]
  | String c rest =>
      if Ascii.eqb c sep then EmptyString :: split sep rest
      else match split sep rest with
           | piece :: pieces => String c piece :: pieces
           | [] => [String c EmptyString]
           end
  end.

Definition is_upper (c : ascii) : bool :=
  let n := nat_of_ascii c in (Nat.leb 65 n && Nat.leb n 90)%bool.

Definition lower_char (c : ascii) : ascii :=
  if is_upper c then ascii_of_nat (nat_of_ascii c + 32) else c.

(** [s.lower()] *)
Fixpoint lower (s : string) : string :=
  match s with
  | EmptyString => EmptyString
  | String c rest => String (lower_char c) (lower rest)
  end.

(** [s.startswith(p)] *)
Definition startswith (s p : string) : bool := String.prefix p s.

(** [t[i]] on a tuple, for a non-negative literal index. *)
Definition index {A : Type} (t : list A) (i : nat) : result A :=
  match nth_error t i with
  | Some x => Ok x
  | None => Raise IndexError
  end.

Definition is_digit (c : ascii) : bool :=
  let n := nat_of_ascii c in (Nat.leb 48 n && Nat.leb n 57)%bool.

Definition digit_value (c : ascii) : Z := Z.of_nat (nat_of_ascii c) - 48.

Fixpoint int_acc (acc : Z) (s : string) : option Z :=
  match s with
  | EmptyString => Some acc
  | String c rest =>
      if is_digit c then int_acc (10 * acc + digit_value c) rest else None
  end.

(** The number of digits at the start of [s]. *)
Fixpoint digit_run (s : string) : nat :=
  match s with
  | EmptyString => O
  | String c rest => if is_digit c then S (digit_run rest) else O
  end.

(** [sys.get_int_max_str_digits()], at its default. *)
Definition int_max_str_digits : nat := 4300.

Definition int_limit_msg (digits : nat) : string :=
  "Exceeds the limit (4300 digits) for integer string conversion: value has "
    ++ str_of_int (Z.of_nat digits)
    ++ " digits; use sys.set_int_max_str_digits() to increase the limit".

(** [int(s)] on an unsigned decimal literal: a run of more than
    [int_max_str_digits] digits raises [ValueError], and so does anything
    that is not a non-empty string of digits. *)
Definition int (s : string) : result Z :=
  match s with
  | EmptyString => Raise (ValueError "invalid literal for int()")
  | _ =>
      if Nat.ltb int_max_str_digits (digit_run s) then
        Raise (ValueError (int_limit_msg (digit_run s)))
      else
        match int_acc 0 s with
        | Some n => Ok n
        | None => Raise (ValueError "invalid literal for int()")
        end
  end.

(** [s.isascii()] *)
Fixpoint isascii (s : string) : bool :=
  match s with
  | EmptyString => true
  | String c rest => Nat.ltb (nat_of_ascii c) 128 && isascii rest
  end.

(** [s.count(c)] for a one-character [c]. *)
Fixpoint count (c : ascii) (s : string) : nat :=
  match s with
  | EmptyString => O
  | String a rest => if Ascii.eqb a c then S (count c rest) else count c rest
  end.

End Py.

(** ** Table paths *)

(** [DbPath = Tuple[str, ...]] *)
Definition DbPath : Type := list string.

(** The part of an [Athena] database object that path normalisation reads:
    [self.name], [self.default_schema] and [str(self)]. *)
Record Athena : Type := mkAthena {
  name : string;
  default_schema : string;
  self_str : string
}.

Definition bad_table_path_msg (self : Athena) (path : DbPath) : string :=
  name self ++ ": Bad table path for " ++ self_str self ++ ": '"
    ++ Py.join "." path ++ "'. Expected form: schema.table".

(** [Athena._normalize_table_path] *)
Definition _normalize_table_path (self : Athena) (path : DbPath) : result DbPath :=
  if Nat.eqb (List.length path) 1 then
    p0 ← Py.index path 0;
    Ok [default_schema self; p0]
  else if Nat.eqb (List.length path) 2 then
    Ok path
  else if Nat.ltb 2 (List.length path) then
    p1 ← Py.index path 1;
    p2 ← Py.index path 2;
    Ok [p1; p2]
  else
    Raise (ValueError (bad_table_path_msg self path)).

(** The last two components of a path. *)
Definition last_two (path : DbPath) : DbPath :=
  drop (List.length path - 2)%nat path.

(** ** SQL text emitted by the dialect *)

(** A syntax tree for the SQL expressions named in the dialect contract.
    The dialect itself builds strings; this tree is the vocabulary in which
    the shape of those strings is stated, and [render] is its concrete
    syntax: call arguments are separated by a comma and a space. *)
#[warnings="-register-all"]
Inductive sql : Type :=
| SqlRaw (text : string)
| SqlInt (n : Z)
| SqlStr (s : string)
| SqlCall (f : string) (args : list sql)
| SqlCast (e : sql) (ty : string)
| SqlSub (a b : sql).

Fixpoint render (e : sql) : string :=
  match e with
  | SqlRaw text => text
  | SqlInt n => Py.str_of_int n
  | SqlStr s => "'" ++ s ++ "'"
  | SqlCall f args =>
      f ++ "(" ++ Py.join ", " (List.map render args) ++ ")"
  | SqlCast e ty => "cast(" ++ render e ++ " as " ++ ty ++ ")"
  | SqlSub a b => render a ++ " - " ++ render b
  end.

(** ** Column types *)

(** The column-type classes the adapter imports from
    [data_diff.abcs.database_types], with the attributes it reads or sets:
    [precision] and [rounds] on temporal types, [precision] on fractional
    types, [item_type] on arrays and [fields] on structs. *)
Inductive ColType : Type :=
| Integer
| Float (precision : Z)
| Decimal (precision : Z)
| Text
| Boolean
| Timestamp (precision : Z) (rounds : bool)
| TimestampTZ (precision : Z) (rounds : bool)
| JSON
| Array (item_type : ColType)
| Struct (fields : list (list string)).

(** [coltype.precision] and [coltype.rounds]; a class without the
    attribute raises [AttributeError]. *)
Definition get_precision (coltype : ColType) : result Z :=
  match coltype with
  | Float p | Decimal p | Timestamp p _ | TimestampTZ p _ => Ok p
  | _ => Raise AttributeError
  end.

Definition get_rounds (coltype : ColType) : result bool :=
  match coltype with
  | Timestamp _ r | TimestampTZ _ r => Ok r
  | _ => Raise AttributeError
  end.

(** [isinstance(coltype, TemporalType)] *)
Definition is_temporal (coltype : ColType) : bool :=
  match coltype with
  | Timestamp _ _ | TimestampTZ _ _ => true
  | _ => false
  end.

(** [RawColumnInfo]: one row of the schema query of [select_table_schema]. *)
Record RawColumnInfo : Type := mkRawColumnInfo {
  column_name : string;
  data_type : string;
  datetime_precision : option Z;
  numeric_precision : option Z;
  numeric_scale : option Z
}.

(** [attrs.evolve(info, data_type=t)] *)
Definition evolve_data_type (info : RawColumnInfo) (t : string) : RawColumnInfo :=
  {| column_name := column_name info;
     data_type := t;
     datetime_precision := datetime_precision info;
     numeric_precision := numeric_precision info;
     numeric_scale := numeric_scale info |}.

(** ** Regular expressions of the type parser *)

Module Re.

Inductive cclass : Type :=
| Digit   (* \d *)
| Dot.    (* .  *)

Definition newline : ascii := ascii_of_nat 10.

Definition test (c : cclass) (a : ascii) : bool :=
  match c with
  | Digit => Py.is_digit a
  | Dot => negb (Ascii.eqb a newline)
  end.

(** The pieces the adapter's patterns are made of: literal text, a
    one-character group such as [(\d)], and a greedy group such as
    [(\d+)] or [(.+)]. *)
Inductive item : Type :=
| Lit (text : string)
| Group1 (c : cclass)
| GroupPlus (c : cclass).

Definition regex : Type := list item.

Fixpoint strip_prefix (p s : string) : option string :=
  match p, s with
  | EmptyString, _ => Some s
  | String a p', String b s' =>
      if Ascii.eqb a b then strip_prefix p' s' else None
  | String _ _, EmptyString => None
  end.

(** Every way a greedy group can split [s] into a non-empty run of
    characters of the class and a rest, longest run first (the order in
    which a backtracking matcher tries them). *)
Fixpoint plus_splits (cls : ascii -> bool) (s : string) : list (string * string) :=
  match s with
  | EmptyString => []
  | String a s' =>
      if cls a then
        List.map (fun gr => (String a (fst gr), snd gr)) (plus_splits cls s')
          ++ [(String a EmptyString, s')]
      else []
  end.

Fixpoint first_some {A B : Type} (f : A -> option B) (l : list A) : option B :=
  match l with
  | [] => None
  | x :: l' => match f x with
               | Some y => Some y
               | None => first_some f l'
               end
  end.

(** [$]: the end of the string, or just before a final newline. *)
Definition at_end (s : string) : bool :=
  match s with
  | EmptyString => true
  | String a EmptyString => Ascii.eqb a newline
  | _ => false
  end.

(** [re.match(r + "$", s)]: the captured groups of the first match in
    backtracking order, or [None]. *)
Fixpoint match_end (r : regex) (s : string) : option (list string) :=
  match r with
  | [] => if at_end s then Some [] else None
  | Lit text :: r' =>
      match strip_prefix text s with
      | Some s' => match_end r' s'
      | None => None
      end
  | Group1 c :: r' =>
      match s with
      | String a s' =>
          if test c a then
            match match_end r' s' with
            | Some gs => Some (String a EmptyString :: gs)
            | None => None
            end
          else None
      | EmptyString => None
      end
  | GroupPlus c :: r' =>
      first_some
        (fun gr => match match_end r' (snd gr) with
                   | Some gs => Some (fst gr :: gs)
                   | None => None
                   end)
        (plus_splits (test c) s)
  end.

(** The groups of a match, with [a] put in front of the first one. *)
Definition push_front (a : ascii) (m : list string) : list string :=
  match m with
  | g :: gs => String a g :: gs
  | [] => []
  end.

(** Every character of [s] is in the class. *)
Fixpoint all_in (c : cclass) (s : string) : bool :=
  match s with
  | EmptyString => true
  | String a s' => test c a && all_in c s'
  end.

(** A run of characters of the class cannot go on into [rest]. *)
Definition stops (c : cclass) (rest : string) : Prop :=
  match rest with
  | EmptyString => True
  | String b _ => test c b = false
  end.

(** [m.group(i)], for [i >= 1]. *)
Definition group (m : list string) (i : nat) : result string :=
  Py.index m (i - 1).

End Re.

(** Modelled from the spec: [match_regexps] of [data_diff.utils] is not
    among the sources. The type parser is described as pattern-based: each
    pattern of the dictionary is tried in insertion order against the whole
    type string, and every pattern that matches is yielded with the value
    stored under it. (A pattern has to cover the whole string: otherwise
    the second timestamp pattern of the adapter could never be chosen.) *)
Fixpoint match_regexps {V : Type} (regexps : list (Re.regex * V)) (s : string)
  : list (list string * V) :=
  match regexps with
  | [] => []
  | (r, v) :: regexps' =>
      match Re.match_end r s with
      | Some m => (m, v) :: match_regexps regexps' s
      | None => match_regexps regexps' s
      end
  end.

(** ** The Athena dialect *)

Module Dialect.

(** [ROUNDS_ON_PREC_LOSS = True] *)
Definition ROUNDS_ON_PREC_LOSS : bool := true.

Definition timestamp_regexps : list (Re.regex * (Z -> bool -> ColType)) :=
  [ ([Re.Lit "timestamp("; Re.Group1 Re.Digit; Re.Lit ")"], Timestamp);
    ([Re.Lit "timestamp("; Re.Group1 Re.Digit; Re.Lit ") with time zone"],
     TimestampTZ) ].

Definition number_regexps : list (Re.regex * (Z -> ColType)) :=
  [ ([Re.Lit "decimal("; Re.GroupPlus Re.Digit; Re.Lit ",";
      Re.GroupPlus Re.Digit; Re.Lit ")"], Decimal) ].

Definition array_regexps : list (Re.regex * (ColType -> ColType)) :=
  [ ([Re.Lit "array("; Re.GroupPlus Re.Dot; Re.Lit ")"], Array) ].

Definition struct_regexps : list (Re.regex * (list (list string) -> ColType)) :=
  [ ([Re.Lit "struct<"; Re.GroupPlus Re.Dot; Re.Lit ">"], Struct) ].

Definition string_regexps : list (Re.regex * ColType) :=
  [ ([Re.Lit "varchar("; Re.GroupPlus Re.Digit; Re.Lit ")"], Text);
    ([Re.Lit "char("; Re.GroupPlus Re.Digit; Re.Lit ")"], Text) ].

(** [map(int, m.groups())] unpacked into two names. *)
Definition int_pair (m : list string) : result (Z * Z) :=
  match m with
  | [a; b] => x ← Py.int a; y ← Py.int b; Ok (x, y)
  | _ => Raise (ValueError "unpack")
  end.

(** [[f.split(":") for f in text.split(",")]] *)
Definition struct_fields (text : string) : list (list string) :=
  List.map (Py.split ":") (Py.split "," text).

Section ParseType.

(** [super().parse_type]: the parser of [BaseDialect], which is
    declared in [data_diff.databases.base]. *)
Variable super_parse_type : DbPath -> RawColumnInfo -> result ColType.

(** [Dialect.parse_type]. The recursion is the call on the item type
    of an array; [depth] bounds its nesting. *)
Fixpoint parse_type_rec (depth : nat) (table_path : DbPath) (info : RawColumnInfo)
  : result ColType :=
  match depth with
  | O => Raise RecursionError
  | S depth' =>
      match match_regexps timestamp_regexps (data_type info) with
      | (m, t_cls) :: _ =>
          g ← Re.group m 1;
          precision ← Py.int g;
          Ok (t_cls precision ROUNDS_ON_PREC_LOSS)
      | [] =>
      match match_regexps number_regexps (data_type info) with
      | (m, n_cls) :: _ =>
          ps ← int_pair m;
          Ok (n_cls (snd ps))
      | [] =>
      match match_regexps array_regexps (data_type info) with
      | (m, _) :: _ =>
          g ← Re.group m 1;
          item_type ← parse_type_rec depth' table_path (evolve_data_type info g);
          Ok (Array item_type)
      | [] =>
      match match_regexps struct_regexps (data_type info) with
      | (m, _) :: _ =>
          g ← Re.group m 1;
          Ok (Struct (struct_fields g))
      | [] =>
      match match_regexps string_regexps (data_type info) with
      | (m, n_cls) :: _ => Ok n_cls
      | [] => super_parse_type table_path info
      end end end end end
  end.

(** A type string of [n] characters nests arrays fewer than [n] times,
    so this depth is never exhausted (lemma [parse_type_unfold]). *)
Definition parse_type (table_path : DbPath) (info : RawColumnInfo)
  : result ColType :=
  parse_type_rec (S (String.length (data_type info))) table_path info.

End ParseType.

Section Checksum.

(** Constants imported from [data_diff.databases.base]. *)
Variables MD5_HEXDIGITS CHECKSUM_HEXDIGITS CHECKSUM_OFFSET : Z.

(** [Dialect.md5_as_int] *)
Definition md5_as_int (s : string) : string :=
  "cast(from_base(substr(to_hex(md5(to_utf8(" ++ s ++ "))), "
    ++ Py.str_of_int (1 + MD5_HEXDIGITS - CHECKSUM_HEXDIGITS)
    ++ "), 16) as decimal(38, 0)) - "
    ++ Py.str_of_int CHECKSUM_OFFSET.

(** [Dialect.md5_as_hex] *)
Definition md5_as_hex (s : string) : string :=
  "to_hex(md5(to_utf8(" ++ s ++ ")))".

(** The checksum expression as the dialect contract words it: hash
    the UTF-8 bytes with MD5, keep the hex digits from position
    [1 + MD5_HEXDIGITS - CHECKSUM_HEXDIGITS] on, read them in base 16 as
    a [decimal(38, 0)], subtract the offset. *)
Definition checksum_expr (s : string) : sql :=
  SqlSub
    (SqlCast
       (SqlCall "from_base"
          [SqlCall "substr"
             [SqlCall "to_hex" [SqlCall "md5" [SqlCall "to_utf8" [SqlRaw s]]];
              SqlInt (1 + MD5_HEXDIGITS - CHECKSUM_HEXDIGITS)];
           SqlInt 16])
       "decimal(38, 0)")
    (SqlInt CHECKSUM_OFFSET).

End Checksum.

Section Timestamp.

(** Constant imported from [data_diff.databases.base]. *)
Variable TIMESTAMP_PRECISION_POS : Z.

(** [Dialect.normalize_timestamp] *)
Definition normalize_timestamp (value : string) (coltype : ColType)
  : result string :=
  rounds ← get_rounds coltype;
  let s :=
    if rounds : bool then
      "date_format(cast(" ++ value ++ " as timestamp(6)), '%Y-%m-%d %H:%i:%S.%f')"
    else
      "date_format(cast(" ++ value ++ " as timestamp(6)), '%Y-%m-%d %H:%i:%S.%f')" in
  precision ← get_precision coltype;
  Ok ("RPAD(RPAD(" ++ s ++ ", "
        ++ Py.str_of_int (TIMESTAMP_PRECISION_POS + precision) ++ ", '.'), "
        ++ Py.str_of_int (TIMESTAMP_PRECISION_POS + 6) ++ ", '0')").

(** The timestamp rendering as the dialect contract words it: format
    at microsecond precision, pad with ['.'] up to the column's own
    precision, then with ['0'] up to six fractional digits. *)
Definition timestamp_expr (value : string) (precision : Z) : sql :=
  SqlCall "RPAD"
    [SqlCall "RPAD"
       [SqlCall "date_format"
          [SqlCast (SqlRaw value) "timestamp(6)";
           SqlStr "%Y-%m-%d %H:%i:%S.%f"];
        SqlInt (TIMESTAMP_PRECISION_POS + precision);
        SqlStr "."];
     SqlInt (TIMESTAMP_PRECISION_POS + 6);
     SqlStr "0"].

End Timestamp.

(** The double-quote character, as a one-character string. *)
Definition dquote : string := String (ascii_of_nat 34) EmptyString.

(** [Dialect.explain_as_text] *)
Definition explain_as_text (query : string) : string :=
  "EXPLAIN (FORMAT TEXT) " ++ query.

(** [Dialect.quote] *)
Definition quote (s : string) : string := dquote ++ s ++ dquote.

(** [Dialect.to_string] *)
Definition to_string (s : string) : string := "cast(" ++ s ++ " as varchar)".

(** [Dialect.set_timezone_to_utc] *)
Definition set_timezone_to_utc : string := "SELECT 'UTC'".

(** [Dialect.current_timestamp] *)
Definition current_timestamp : string := "current_timestamp".

(** [Dialect.normalize_uuid] *)
Definition normalize_uuid (value : string) (coltype : ColType) : string :=
  "TRIM(CAST(" ++ value ++ " AS VARCHAR))".

(** [Dialect.normalize_boolean] *)
Definition normalize_boolean (value : string) (_coltype : ColType) : string :=
  to_string ("cast (" ++ value ++ " as int)").

(** [Dialect.normalize_json] *)
Definition normalize_json (value : string) (_coltype : ColType) : string :=
  "json_format(cast(" ++ value ++ " as json))".

(** [Dialect.normalize_array] *)
Definition normalize_array (value : string) (_coltype : ColType) : string :=
  normalize_json value _coltype.

(** [Dialect.normalize_struct] *)
Definition normalize_struct (value : string) (_coltype : ColType) : string :=
  normalize_json value _coltype.


End Dialect.

(** ** The engine's string functions

    What Athena does with [substr] and [rpad] when it runs the emitted
    text (its documented behaviour; the adapter only names the functions).
    Positions are counted from 1. *)

Module Engine.

Fixpoint take (n : nat) (s : string) : string :=
  match n, s with
  | S n', String a s' => String a (take n' s')
  | _, _ => EmptyString
  end.

Fixpoint drop (n : nat) (s : string) : string :=
  match n, s with
  | S n', String _ s' => drop n' s'
  | _, _ => s
  end.

(** [n] characters read cyclically from [pad], continuing at [cur]. *)
Fixpoint cycle (n : nat) (cur pad : string) : string :=
  match n with
  | O => EmptyString
  | S n' =>
      match cur with
      | String a cur' => String a (cycle n' cur' pad)
      | EmptyString =>
          match pad with
          | String a pad' => String a (cycle n' pad' pad)
          | EmptyString => EmptyString
          end
      end
  end.

(** [substr(s, start)] with a positive [start]: the rest of [s] from
    that position on. *)
Definition substr (s : string) (start : Z) : string :=
  drop (Z.to_nat (start - 1)) s.

(** [rpad(s, size, pad)]: [s] cut to [size] characters when it is
    longer, otherwise filled on the right with [pad]; a negative [size]
    or an empty [pad] is an error. *)
Definition rpad (s : string) (size : Z) (pad : string) : option string :=
  if (size <? 0) || String.eqb pad EmptyString then None
  else if size <=? Z.of_nat (String.length s) then Some (take (Z.to_nat size) s)
  else Some (s ++ cycle (Z.to_nat size - String.length s) pad pad).

Definition zeros (n : nat) : string := cycle n "0" "0".

End Engine.

(** ** Running a statement on a cursor *)

(** What [query_cursor] hands back: the list of [fetchall], the row (or
    [None]) of [fetchone], or Python's implicit [None]. *)
Inductive fetched (Row : Type) : Type :=
| AllRows (rows : list Row)
| OneRow (row : option Row)
| Nothing.
Arguments AllRows {Row} rows.
Arguments OneRow {Row} row.
Arguments Nothing {Row}.

(** The DB-API cursor methods the adapter calls. Each one acts on the
    cursor and may raise. *)
Class Cursor (C Row : Type) : Type := {
  execute : string -> C -> result C;
  fetchall : C -> result (list Row * C);
  fetchone : C -> result (option Row * C)
}.

(** Two ASCII characters equal up to case, as under [re.IGNORECASE]. On
    ASCII text this is exactly the comparison the flag makes. The flag
    also lets a few characters outside ASCII stand for an ASCII letter
    (U+017F for [s], U+0130 and U+0131 for [i], U+212A for [k]); these are
    not characters of a [string], so a result that rests on a match
    failing is stated for text that satisfies [Py.isascii]. *)
Definition eqb_ignorecase (a b : ascii) : bool :=
  Ascii.eqb (Py.lower_char a) (Py.lower_char b).

Fixpoint prefix_ignorecase (p s : string) : bool :=
  match p, s with
  | EmptyString, _ => true
  | String a p', String b s' => eqb_ignorecase a b && prefix_ignorecase p' s'
  | String _ _, EmptyString => false
  end.

(** [re.match(r"(a|b|...)", s, re.IGNORECASE)] as a truth value: some
    alternative is a prefix of [s] up to case. *)
Definition match_alternatives_ignorecase (alts : list string) (s : string) : bool :=
  existsb (fun alt => prefix_ignorecase alt s) alts.

Definition drained_keywords : list string :=
  ["insert"; "create"; "truncate"; "drop"; "explain"].

(** [query_cursor] *)
Definition query_cursor {C Row : Type} `{Cursor C Row} (c : C) (sql_code : string)
  : result (fetched Row * C) :=
  c1 ← execute sql_code c;
  if Py.startswith (Py.lower sql_code) "select" then
    rc ← fetchall c1;
    Ok (AllRows (fst rc), snd rc)
  else if match_alternatives_ignorecase drained_keywords sql_code then
    rc ← fetchone c1;
    Ok (OneRow (fst rc), snd rc)
  else
    Ok (Nothing, c1).

(** [s] begins with the keyword [kw], written in any mix of cases. *)
Definition begins_with_keyword (kw s : string) : Prop :=
  exists head rest, s = head ++ rest /\ Py.lower head = kw.

(** A cursor that records what was asked of it: the rows still to be
    fetched and the log of calls. *)
Inductive call : Type :=
| CallExecute (sql_code : string)
| CallFetchall
| CallFetchone.

Record LogCursor : Type := mkLogCursor {
  pending : list (list string);
  calls : list call
}.

#[global] Instance LogCursor_Cursor : Cursor LogCursor (list string) := {
  execute sql_code c :=
    Ok {| pending := pending c; calls := calls c ++ [CallExecute sql_code] |};
  fetchall c :=
    Ok (pending c, {| pending := []; calls := calls c ++ [CallFetchall] |});
  fetchone c :=
    Ok (head (pending c),
        {| pending := tail (pending c); calls := calls c ++ [CallFetchone] |})
}.

(** ** The base dialect's type parser *)

(** [Dialect.TYPE_CLASSES]: the classes are named by tags. *)
Inductive type_class : Type :=
| ClsTimestampTZ | ClsTimestamp | ClsInteger | ClsFloat | ClsDecimal
| ClsText | ClsBoolean | ClsJSON | ClsArray | ClsStruct.

Definition TYPE_CLASSES : list (string * type_class) :=
  [ ("timestamp with time zone", ClsTimestampTZ);
    ("timestamp without time zone", ClsTimestamp);
    ("timestamp", ClsTimestamp);
    ("integer", ClsInteger);
    ("bigint", ClsInteger);
    ("real", ClsFloat);
    ("double", ClsFloat);
    ("decimal", ClsDecimal);
    ("varchar", ClsText);
    ("string", ClsText);
    ("boolean", ClsBoolean);
    ("json", ClsJSON);
    ("array", ClsArray);
    ("struct", ClsStruct) ].

Fixpoint dict_get {V : Type} (d : list (string * V)) (k : string) : option V :=
  match d with
  | [] => None
  | (k', v) :: d' => if String.eqb k' k then Some v else dict_get d' k
  end.

(** Modelled from the spec: [BaseDialect.parse_type] of
    [data_diff.databases.base] is not among the sources. The type name is
    looked up in the dialect's [TYPE_CLASSES]; an unknown name fails rather
    than being guessed; a known class is built from the declared precision
    hints, a temporal class with the dialect's rounding constant. An array
    or struct class cannot be built from its bare name. *)
Definition base_parse_type (table_path : DbPath) (info : RawColumnInfo)
  : result ColType :=
  match dict_get TYPE_CLASSES (data_type info) with
  | None => Raise (TypeError ("unsupported type " ++ data_type info))
  | Some ClsTimestamp =>
      Ok (Timestamp (default 6 (datetime_precision info)) Dialect.ROUNDS_ON_PREC_LOSS)
  | Some ClsTimestampTZ =>
      Ok (TimestampTZ (default 6 (datetime_precision info)) Dialect.ROUNDS_ON_PREC_LOSS)
  | Some ClsInteger => Ok Integer
  | Some ClsFloat => Ok (Float (default 0 (numeric_precision info)))
  | Some ClsDecimal => Ok (Decimal (default 0 (numeric_scale info)))
  | Some ClsText => Ok Text
  | Some ClsBoolean => Ok Boolean
  | Some ClsJSON => Ok JSON
  | Some ClsArray | Some ClsStruct => Raise (TypeError "missing argument")
  end.

(** The temporal types a column type contains: itself, or those of the
    item type of an array. *)
Fixpoint temporals (t : ColType) : list ColType :=
  match t with
  | Timestamp _ _ | TimestampTZ _ _ => [t]
  | Array item_type => temporals item_type
  | _ => []
  end.

(** ** The report projector

    [data_diff.format] is not among the sources; [tests/test_format.py]
    shows its input (a [DiffResultWrapper] built from table segments, a
    diff schema and diff rows) and its output. The report is a record with
    one field per key of the JSON document; [result_] stands for the key
    [result], and [dataset1_value] and [dataset2_value] for the keys
    [dataset1] and [dataset2] of a diff row. *)

Module Format.

(** The values a diff row holds. *)
Inductive pyval : Type :=
| PNone
| PBool (b : bool)
| PInt (n : Z)
| PStr (s : string).

(** [bool(v)] *)
Definition truthy (v : pyval) : bool :=
  match v with
  | PNone => false
  | PBool b => b
  | PInt n => negb (n =? 0)
  | PStr s => negb (String.eqb s EmptyString)
  end.

Inductive pytype : Type := TyBool | TyInt | TyStr.

Record TableSegment : Type := mkTableSegment {
  table_path : DbPath;
  key_columns : list string
}.

Record SegmentInfo : Type := mkSegmentInfo {
  tables : list TableSegment;
  diff_schema : list (string * pytype);
  diff : list (list pyval)
}.

Record InfoTree : Type := mkInfoTree { info : SegmentInfo }.

Record DiffResultWrapper : Type := mkDiffResultWrapper {
  info_tree : InfoTree;
  flat_diff : list (list pyval);
  stats : list (string * pyval)
}.

Record JsonExclusiveRowValue : Type := mkExclusiveValue {
  ex_isPK : bool;
  ex_value : pyval
}.

Record JsonDiffRowValue : Type := mkDiffValue {
  isPK : bool;
  dataset1_value : pyval;
  dataset2_value : pyval;
  isDiff : bool
}.

Record ExclusiveDiff : Type := mkExclusiveDiff {
  exclusive_dataset1 : list (list (string * JsonExclusiveRowValue));
  exclusive_dataset2 : list (list (string * JsonExclusiveRowValue))
}.

Record RowsDiff : Type := mkRowsDiff {
  exclusive : ExclusiveDiff;
  rows_diff : list (list (string * JsonDiffRowValue))
}.

Record JsonDiff : Type := mkJsonDiff {
  version : string;
  status : string;
  result_ : string;
  model : string;
  dataset1 : list string;
  dataset2 : list string;
  rows : RowsDiff;
  summary : option (list (string * pyval));
  columns : option (list (string * list string))
}.

(** [s.removesuffix(suffix)], or [None] when [s] does not end with it. *)
Definition removesuffix (suffix s : string) : option string :=
  let n := (String.length s - String.length suffix)%nat in
  if Nat.leb (String.length suffix) (String.length s)
     && String.eqb (String.substring n (String.length suffix) s) suffix
  then Some (String.substring 0 n s) else None.

Definition is_flag (field : string) : bool :=
  String.eqb field "is_exclusive_a" || String.eqb field "is_exclusive_b"
  || String.prefix "is_diff_" field.

(** The compared columns of a row, in schema order: a field [c_a] that
    is not a flag stands for the column [c]. *)
Definition row_columns (row : list (string * pyval)) : list string :=
  omap (fun fv => if is_flag (fst fv) then None else removesuffix "_a" (fst fv)) row.

Definition field (row : list (string * pyval)) (name : string) : pyval :=
  default PNone (dict_get row name).

Definition mem (x : string) (l : list string) : bool :=
  existsb (String.eqb x) l.

(** Modelled from the spec: one entry of [rows.exclusive.dataset1] or
    [rows.exclusive.dataset2], a mapping from each column to its [isPK]
    flag and its value on the side the row is exclusive to. *)
Definition jsonify_exclusive (side : string) (key_columns : list string)
    (row : list (string * pyval)) : list (string * JsonExclusiveRowValue) :=
  List.map (fun c => (c, {| ex_isPK := mem c key_columns;
                            ex_value := field row (c ++ side) |}))
           (row_columns row).

(** Modelled from the spec: one entry of [rows.diff], a mapping from each
    column to its [isPK] flag, its value on either side and its [isDiff]
    flag. *)
Definition jsonify_diff (key_columns : list string)
    (row : list (string * pyval)) : list (string * JsonDiffRowValue) :=
  List.map (fun c => (c, {| isPK := mem c key_columns;
                            dataset1_value := field row (c ++ "_a");
                            dataset2_value := field row (c ++ "_b");
                            isDiff := truthy (field row ("is_diff_" ++ c)) |}))
           (row_columns row).

Definition is_nil {A : Type} (l : list A) : bool :=
  match l with [] => true | _ => false end.

(** Modelled from the spec: [jsonify] of [data_diff.format] is not among
    the sources. It reshapes the finished result into the report format:
    each diff row is read against the field names of the schema; a row
    flagged exclusive to one side goes to that side's exclusive list with
    its values from that side; any other row goes to the diff list with
    both values and the per-column difference flag; a column is a key
    when it is among the first table's key columns; the result is
    "identical" exactly when all three lists are empty; the summary and
    the columns are not computed. *)
Definition jsonify (d : DiffResultWrapper) (dbt_model : string) : result JsonDiff :=
  let diff_info := info (info_tree d) in
  table1 ← Py.index (tables diff_info) 0;
  table2 ← Py.index (tables diff_info) 1;
  let keys := key_columns table1 in
  let schema := List.map fst (diff_schema diff_info) in
  let dicts := List.map (fun row => zip schema row) (diff diff_info) in
  let t1_rows := List.filter (fun r => truthy (field r "is_exclusive_a")) dicts in
  let t2_rows :=
    List.filter (fun r => negb (truthy (field r "is_exclusive_a"))
                          && truthy (field r "is_exclusive_b")) dicts in
  let diff_rows :=
    List.filter (fun r => negb (truthy (field r "is_exclusive_a"))
                          && negb (truthy (field r "is_exclusive_b"))) dicts in
  let is_different :=
    negb (is_nil t1_rows && is_nil t2_rows && is_nil diff_rows) in
  Ok {| version := "1.0.0";
        status := "success";
        result_ := if is_different then "different" else "identical";
        model := dbt_model;
        dataset1 := table_path table1;
        dataset2 := table_path table2;
        rows :=
          {| exclusive :=
               {| exclusive_dataset1 := List.map (jsonify_exclusive "_a" keys) t1_rows;
                  exclusive_dataset2 := List.map (jsonify_exclusive "_b" keys) t2_rows |};
             rows_diff := List.map (jsonify_diff keys) diff_rows |};
        summary := None;
        columns := None |}.

(** The wrapper built in [test_jsonify_diff] and in
    [test_jsonify_diff_no_difeference], up to the rows of the diff. *)
Definition test_wrapper (rows : list (list pyval)) : DiffResultWrapper :=
  {| info_tree :=
       {| info :=
            {| tables :=
                 [ {| table_path := ["db"; "schema"; "table1"];
                      key_columns := ["id"] |};
                   {| table_path := ["db"; "schema"; "table2"];
                      key_columns := ["id"] |} ];
               diff_schema :=
                 [ ("is_exclusive_a", TyBool); ("is_exclusive_b", TyBool);
                   ("is_diff_id", TyInt); ("is_diff_value", TyInt);
                   ("id_a", TyStr); ("id_b", TyStr);
                   ("value_a", TyStr); ("value_b", TyStr) ];
               diff := rows |} |};
     flat_diff := [];
     stats := [] |}.

Definition test_rows : list (list pyval) :=
  [ [PBool false; PBool false; PInt 0; PInt 1;
     PStr "1"; PStr "1"; PStr "3"; PStr "201"];
    [PBool true; PBool false; PInt 1; PInt 1;
     PStr "2"; PNone; PStr "4"; PNone];
    [PBool false; PBool true; PInt 1; PInt 1;
     PNone; PStr "3"; PNone; PStr "202"] ].

End Format.

(** ** Further methods of the database object *)

(** The value [Athena.__init__] leaves in [self.default_schema]:
    ["public"], replaced by the [schema] keyword when that is given and
    not empty. The keywords are the string-valued connection options; the
    connection the constructor opens is not part of this value. *)
Definition init_default_schema (kw : list (string * string)) : string :=
  let default_schema := "public" in
  match dict_get kw "schema" with
  | Some schema =>
      if negb (String.eqb schema EmptyString) then schema else default_schema
  | None => default_schema
  end.

(** [Athena.select_table_schema] *)
Definition select_table_schema (self : Athena) (path : DbPath) : result string :=
  normalized ← _normalize_table_path self path;
  match normalized with
  | [schema; table] =>
      Ok ("SELECT column_name, data_type, 3 as datetime_precision, 3 as numeric_precision, NULL as numeric_scale "
            ++ "FROM INFORMATION_SCHEMA.COLUMNS "
            ++ "WHERE table_name = '" ++ table ++ "' AND table_schema = '"
            ++ schema ++ "'")
  | _ => Raise (ValueError "unpack")
  end.

(** [Athena.is_autocommit] *)
Definition is_autocommit (self : Athena) : bool := false.

(** * Properties *)

(** ** Strings *)

Section StringFacts.

Lemma append_assoc (a b c : string) : (a ++ b) ++ c = a ++ (b ++ c).
Proof. induction a as [|x a IH]; simpl; [reflexivity | now rewrite IH]. Qed.

Lemma append_empty_r (a : string) : a ++ "" = a.
Proof. induction a as [|x a IH]; simpl; [reflexivity | now rewrite IH]. Qed.

Lemma length_append (a b : string) :
  String.length (a ++ b) = (String.length a + String.length b)%nat.
Proof. induction a as [|x a IH]; simpl; [reflexivity | now rewrite IH]. Qed.

Lemma lower_append (a b : string) : Py.lower (a ++ b) = Py.lower a ++ Py.lower b.
Proof. induction a as [|x a IH]; simpl; [reflexivity | now rewrite IH]. Qed.

Lemma lower_length (a : string) : String.length (Py.lower a) = String.length a.
Proof. induction a as [|x a IH]; simpl; [reflexivity | now rewrite IH]. Qed.

Lemma prefix_append (p s : string) : String.prefix p (p ++ s) = true.
Proof.
  induction p as [|x p IH]; simpl; [now destruct s |].
  destruct (ascii_dec x x) as [_|ne]; [exact IH | now destruct ne].
Qed.

Lemma take_length (n : nat) (s : string) :
  (n <= String.length s)%nat -> String.length (Engine.take n s) = n.
Proof.
  revert s; induction n as [|n IH]; intros [|a s] Hn; simpl in *;
    try reflexivity; try lia.
  rewrite IH; [reflexivity | lia].
Qed.

Lemma drop_length (n : nat) (s : string) :
  String.length (Engine.drop n s) = (String.length s - n)%nat.
Proof.
  revert s; induction n as [|n IH]; intros [|a s]; simpl; try reflexivity.
  apply IH.
Qed.

Lemma take_drop (n : nat) (s : string) : Engine.take n s ++ Engine.drop n s = s.
Proof.
  revert s; induction n as [|n IH]; intros [|a s]; simpl; try reflexivity.
  now rewrite IH.
Qed.

Lemma take_all (n : nat) (s : string) :
  (String.length s <= n)%nat -> Engine.take n s = s.
Proof.
  revert s; induction n as [|n IH]; intros [|a s] Hn; simpl in *;
    try reflexivity; try lia.
  rewrite IH; [reflexivity | lia].
Qed.

Lemma take_append (n : nat) (a b : string) :
  (n <= String.length a)%nat -> Engine.take n (a ++ b) = Engine.take n a.
Proof.
  revert a; induction n as [|n IH]; intros a Hn.
  - now destruct a, b.
  - destruct a as [|x a]; simpl in *; [lia |].
    rewrite IH; [reflexivity | lia].
Qed.

Lemma cycle_length (n : nat) (cur pad : string) :
  pad <> "" -> String.length (Engine.cycle n cur pad) = n.
Proof.
  intros Hpad; revert cur; induction n as [|n IH]; intros cur; simpl;
    [reflexivity |].
  destruct cur as [|a cur]; [destruct pad as [|a pad]; [congruence |] |];
    simpl; now rewrite IH.
Qed.

Lemma rpad_length (s pad : string) (size : Z) :
  0 <= size -> pad <> "" ->
  exists out, Engine.rpad s size pad = Some out
              /\ Z.of_nat (String.length out) = size.
Proof.
  intros Hsize Hpad. unfold Engine.rpad.
  destruct (Z.ltb_spec size 0) as [|_]; [lia |].
  destruct (String.eqb_spec pad "") as [|_]; [congruence |]. simpl.
  destruct (Z.leb_spec size (Z.of_nat (String.length s))) as [Hle|Hgt];
    eexists; split; try reflexivity.
  - rewrite take_length; lia.
  - rewrite length_append, cycle_length by assumption. lia.
Qed.

End StringFacts.

(** ** Table-path normalisation *)

Section TablePath.

Variable self : Athena.

Lemma normalize_one (t : string) :
  _normalize_table_path self [t] = Ok [default_schema self; t].
Proof. reflexivity. Qed.

Lemma normalize_two (s t : string) :
  _normalize_table_path self [s; t] = Ok [s; t].
Proof. reflexivity. Qed.

Lemma normalize_three_or_more (c s t : string) (rest : list string) :
  _normalize_table_path self (c :: s :: t :: rest) = Ok [s; t].
Proof. reflexivity. Qed.

Lemma normalize_empty :
  _normalize_table_path self [] = Raise (ValueError (bad_table_path_msg self [])).
Proof. reflexivity. Qed.

(** C4, as amended: one component is paired with the default schema, two
    components are returned as they are, and three or more components
    give the second and the third, which for exactly three components
    are the last two. *)
Theorem normalize_table_path_by_length :
  (forall t, _normalize_table_path self [t] = Ok [default_schema self; t])
  /\ (forall s t, _normalize_table_path self [s; t] = Ok [s; t])
  /\ (forall c s t rest,
        _normalize_table_path self (c :: s :: t :: rest) = Ok [s; t])
  /\ (forall c s t,
        _normalize_table_path self [c; s; t] = Ok (last_two [c; s; t])).
Proof.
  repeat split; intros;
    auto using normalize_one, normalize_two, normalize_three_or_more.
Qed.

(** C5: normalisation raises exactly on the empty path, with a
    [ValueError] whose message quotes the dotted path; every other path
    yields a schema and a table. *)
Theorem normalize_table_path_raises_iff_empty (path : DbPath) :
  ((exists e, _normalize_table_path self path = Raise e) <-> path = [])
  /\ (path = [] ->
      _normalize_table_path self path
      = Raise (ValueError (name self ++ ": Bad table path for " ++ self_str self
                             ++ ": '" ++ Py.join "." path
                             ++ "'. Expected form: schema.table")))
  /\ (path <> [] ->
      exists schema table, _normalize_table_path self path = Ok [schema; table]).
Proof.
  destruct path as [|c [|s [|t rest]]].
  - split; [split; [reflexivity | intros _; eexists; apply normalize_empty] |].
    split; [intros _; reflexivity | congruence].
  - rewrite normalize_one.
    split; [split; [intros [e He]; discriminate | discriminate] |].
    split; [discriminate | intros _; eauto].
  - rewrite normalize_two.
    split; [split; [intros [e He]; discriminate | discriminate] |].
    split; [discriminate | intros _; eauto].
  - rewrite normalize_three_or_more.
    split; [split; [intros [e He]; discriminate | discriminate] |].
    split; [discriminate | intros _; eauto].
Qed.

End TablePath.

(** C4, as stated, fails on a path of four components: the second and the
    third are returned, not the last two. *)
Lemma normalize_table_path_four_components :
  let self := mkAthena "Athena" "public" "Athena()" in
  let path := ["awsdatacatalog"; "sales"; "orders"; "extra"] in
  _normalize_table_path self path = Ok ["sales"; "orders"]
  /\ last_two path = ["orders"; "extra"]
  /\ _normalize_table_path self path <> Ok (last_two path).
Proof. repeat split. discriminate. Qed.

Lemma normalize_table_path_raises_iff_empty_witness :
  ["orders"] <> ([] : DbPath)
  /\ exists schema table,
       _normalize_table_path (mkAthena "Athena" "public" "Athena()") ["orders"]
       = Ok [schema; table].
Proof.
  split; [discriminate |].
  apply (normalize_table_path_raises_iff_empty
           (mkAthena "Athena" "public" "Athena()") ["orders"]).
  discriminate.
Defined.

(** ** Checksum and timestamp expressions *)

Section Expressions.

Variables MD5_HEXDIGITS CHECKSUM_HEXDIGITS CHECKSUM_OFFSET : Z.
Variable TIMESTAMP_PRECISION_POS : Z.

Lemma md5_as_int_render (s : string) :
  Dialect.md5_as_int MD5_HEXDIGITS CHECKSUM_HEXDIGITS CHECKSUM_OFFSET s
  = render (Dialect.checksum_expr MD5_HEXDIGITS CHECKSUM_HEXDIGITS CHECKSUM_OFFSET s).
Proof.
  unfold Dialect.md5_as_int, Dialect.checksum_expr.
  cbn [render List.map Py.join String.concat].
  repeat rewrite append_assoc. reflexivity.
Qed.

Lemma substr_keeps_trailing (digest : string) :
  Z.of_nat (String.length digest) = MD5_HEXDIGITS ->
  0 <= CHECKSUM_HEXDIGITS <= MD5_HEXDIGITS ->
  Z.of_nat (String.length
              (Engine.substr digest (1 + MD5_HEXDIGITS - CHECKSUM_HEXDIGITS)))
  = CHECKSUM_HEXDIGITS
  /\ exists dropped,
       digest = dropped
                ++ Engine.substr digest (1 + MD5_HEXDIGITS - CHECKSUM_HEXDIGITS).
Proof.
  intros Hlen Hrange. unfold Engine.substr. split.
  - rewrite drop_length. lia.
  - eexists. symmetry. apply take_drop.
Qed.

(** C1: [md5_as_int] emits exactly the checksum expression of the
    contract (MD5 of the UTF-8 bytes, hex digits from position
    [1 + MD5_HEXDIGITS - CHECKSUM_HEXDIGITS], base 16 to [decimal(38, 0)],
    minus [CHECKSUM_OFFSET]), and on a digest of [MD5_HEXDIGITS] digits that
    position keeps exactly the trailing [CHECKSUM_HEXDIGITS] of them. *)
Theorem md5_as_int_checksum_expr (s : string) :
  Dialect.md5_as_int MD5_HEXDIGITS CHECKSUM_HEXDIGITS CHECKSUM_OFFSET s
  = render (Dialect.checksum_expr MD5_HEXDIGITS CHECKSUM_HEXDIGITS CHECKSUM_OFFSET s)
  /\ forall digest,
       Z.of_nat (String.length digest) = MD5_HEXDIGITS ->
       0 <= CHECKSUM_HEXDIGITS <= MD5_HEXDIGITS ->
       Z.of_nat (String.length
                   (Engine.substr digest (1 + MD5_HEXDIGITS - CHECKSUM_HEXDIGITS)))
       = CHECKSUM_HEXDIGITS
       /\ exists dropped,
            digest = dropped
                     ++ Engine.substr digest (1 + MD5_HEXDIGITS - CHECKSUM_HEXDIGITS).
Proof. split; [apply md5_as_int_render | apply substr_keeps_trailing]. Qed.

Lemma normalize_timestamp_render (value : string) (p : Z) (r : bool) :
  Dialect.normalize_timestamp TIMESTAMP_PRECISION_POS value (Timestamp p r)
  = Ok (render (Dialect.timestamp_expr TIMESTAMP_PRECISION_POS value p))
  /\ Dialect.normalize_timestamp TIMESTAMP_PRECISION_POS value (TimestampTZ p r)
     = Ok (render (Dialect.timestamp_expr TIMESTAMP_PRECISION_POS value p)).
Proof.
  unfold Dialect.normalize_timestamp, Dialect.timestamp_expr.
  cbn [get_rounds get_precision mbind result_mbind rbind
       render List.map Py.join String.concat].
  destruct r; repeat rewrite append_assoc; split; reflexivity.
Qed.

Lemma rpad_twice (formatted : string) (p : Z) :
  0 <= TIMESTAMP_PRECISION_POS -> 0 <= p ->
  exists inner out,
    Engine.rpad formatted (TIMESTAMP_PRECISION_POS + p) "." = Some inner
    /\ Engine.rpad inner (TIMESTAMP_PRECISION_POS + 6) "0" = Some out
    /\ Z.of_nat (String.length out) = TIMESTAMP_PRECISION_POS + 6
    /\ (Z.of_nat (String.length formatted) = TIMESTAMP_PRECISION_POS + 6 ->
        p <= 6 ->
        out = Engine.take (Z.to_nat (TIMESTAMP_PRECISION_POS + p)) formatted
              ++ Engine.zeros (Z.to_nat (6 - p))).
Proof.
  intros Hpos Hp.
  destruct (rpad_length formatted "." (TIMESTAMP_PRECISION_POS + p))
    as (inner & Hinner & Hlen_inner); [lia | discriminate |].
  destruct (rpad_length inner "0" (TIMESTAMP_PRECISION_POS + 6))
    as (out & Hout & Hlen_out); [lia | discriminate |].
  exists inner, out. repeat split; try assumption.
  intros Hlen Hp6.
  unfold Engine.rpad in Hinner, Hout. simpl in Hinner, Hout.
  destruct (Z.ltb_spec (TIMESTAMP_PRECISION_POS + p) 0); [lia |].
  destruct (Z.ltb_spec (TIMESTAMP_PRECISION_POS + 6) 0); [lia |].
  simpl in Hinner, Hout.
  destruct (Z.leb_spec (TIMESTAMP_PRECISION_POS + p)
              (Z.of_nat (String.length formatted))); [| lia].
  injection Hinner as <-.
  destruct (Z.leb_spec (TIMESTAMP_PRECISION_POS + 6)
              (Z.of_nat (String.length
                 (Engine.take (Z.to_nat (TIMESTAMP_PRECISION_POS + p)) formatted))))
    as [Hfull|Hshort]; injection Hout as <-.
  - assert (p = 6) as -> by lia.
    rewrite take_all by lia. unfold Engine.zeros.
    simpl. now rewrite append_empty_r.
  - unfold Engine.zeros. do 2 f_equal.
    rewrite take_length by lia. lia.
Qed.

(** C2: for a temporal column type of precision [p], [normalize_timestamp]
    emits the microsecond-precision format padded with ['.'] to
    [TIMESTAMP_PRECISION_POS + p] and then with ['0'] to
    [TIMESTAMP_PRECISION_POS + 6]; evaluated on any formatted string the
    result has [TIMESTAMP_PRECISION_POS + 6] characters, and on a string
    formatted with six fractional digits it is the first
    [TIMESTAMP_PRECISION_POS + p] characters followed by [6 - p] zeros. *)
Theorem normalize_timestamp_pads_to_six
    (value : string) (p : Z) (r : bool) (coltype : ColType) :
  coltype = Timestamp p r \/ coltype = TimestampTZ p r ->
  Dialect.normalize_timestamp TIMESTAMP_PRECISION_POS value coltype
  = Ok (render (Dialect.timestamp_expr TIMESTAMP_PRECISION_POS value p))
  /\ forall formatted,
       0 <= TIMESTAMP_PRECISION_POS -> 0 <= p ->
       exists inner out,
         Engine.rpad formatted (TIMESTAMP_PRECISION_POS + p) "." = Some inner
         /\ Engine.rpad inner (TIMESTAMP_PRECISION_POS + 6) "0" = Some out
         /\ Z.of_nat (String.length out) = TIMESTAMP_PRECISION_POS + 6
         /\ (Z.of_nat (String.length formatted) = TIMESTAMP_PRECISION_POS + 6 ->
             p <= 6 ->
             out = Engine.take (Z.to_nat (TIMESTAMP_PRECISION_POS + p)) formatted
                   ++ Engine.zeros (Z.to_nat (6 - p))).
Proof.
  intros Hcol. split.
  - destruct Hcol as [-> | ->]; apply normalize_timestamp_render.
  - intros formatted. apply rpad_twice.
Qed.

(** C3: the expression does not depend on the [rounds] flag of the
    column type. *)
Theorem normalize_timestamp_ignores_rounds (value : string) (p : Z) :
  Dialect.normalize_timestamp TIMESTAMP_PRECISION_POS value (Timestamp p true)
  = Dialect.normalize_timestamp TIMESTAMP_PRECISION_POS value (Timestamp p false)
  /\ Dialect.normalize_timestamp TIMESTAMP_PRECISION_POS value (TimestampTZ p true)
     = Dialect.normalize_timestamp TIMESTAMP_PRECISION_POS value (TimestampTZ p false).
Proof. split; reflexivity. Qed.

End Expressions.

Lemma md5_as_int_checksum_expr_witness :
  let digest := "d41d8cd98f00b204e9800998ecf8427e" in
  Z.of_nat (String.length digest) = 32
  /\ 0 <= 14 <= 32
  /\ Z.of_nat (String.length (Engine.substr digest (1 + 32 - 14))) = 14
  /\ exists dropped, digest = dropped ++ Engine.substr digest (1 + 32 - 14).
Proof.
  split; [reflexivity |]. split; [lia |].
  apply (md5_as_int_checksum_expr 32 14 36028797018963967 "col");
    [reflexivity | lia].
Defined.

Lemma normalize_timestamp_pads_to_six_witness :
  let formatted := "2024-01-02 03:04:05.123456" in
  Dialect.normalize_timestamp 20 "ts" (Timestamp 3 true)
  = Ok (render (Dialect.timestamp_expr 20 "ts" 3))
  /\ exists inner out,
       Engine.rpad formatted (20 + 3) "." = Some inner
       /\ Engine.rpad inner (20 + 6) "0" = Some out
       /\ Z.of_nat (String.length out) = 20 + 6
       /\ (Z.of_nat (String.length formatted) = 20 + 6 ->
           3 <= 6 ->
           out = Engine.take (Z.to_nat (20 + 3)) formatted
                 ++ Engine.zeros (Z.to_nat (6 - 3))).
Proof.
  destruct (normalize_timestamp_pads_to_six 20 "ts" 3 true (Timestamp 3 true))
    as [Hexpr Hpad]; [left; reflexivity |].
  split; [exact Hexpr |].
  apply Hpad; lia.
Defined.

(** ** Running a statement *)

Section QueryCursor.

Context {C Row : Type} `{Cursor C Row}.

Lemma lower_char_idempotent (a : ascii) :
  Py.lower_char (Py.lower_char a) = Py.lower_char a.
Proof. destruct a as [[] [] [] [] [] [] [] []]; reflexivity. Qed.

Lemma prefix_ignorecase_lower (head rest : string) :
  prefix_ignorecase (Py.lower head) (head ++ rest) = true.
Proof.
  induction head as [|a head IH]; simpl; [reflexivity |].
  unfold eqb_ignorecase. rewrite lower_char_idempotent, Ascii.eqb_refl.
  exact IH.
Qed.

Lemma select_startswith (sql_code : string) :
  begins_with_keyword "select" sql_code ->
  Py.startswith (Py.lower sql_code) "select" = true.
Proof.
  intros (head & rest & -> & Hkw).
  unfold Py.startswith. rewrite lower_append, Hkw. apply prefix_append.
Qed.

Lemma drained_not_select (kw sql_code : string) :
  In kw drained_keywords -> begins_with_keyword kw sql_code ->
  Py.startswith (Py.lower sql_code) "select" = false.
Proof.
  intros Hin (head & rest & -> & Hkw).
  unfold Py.startswith. rewrite lower_append.
  destruct Hin as [<- | [<- | [<- | [<- | [<- | []]]]]];
    rewrite Hkw; reflexivity.
Qed.

Lemma drained_matches (kw sql_code : string) :
  In kw drained_keywords -> begins_with_keyword kw sql_code ->
  match_alternatives_ignorecase drained_keywords sql_code = true.
Proof.
  intros Hin (head & rest & -> & Hkw).
  apply existsb_exists. exists kw. split; [exact Hin |].
  rewrite <- Hkw. apply prefix_ignorecase_lower.
Qed.

Lemma no_keyword_no_fetch (c : C) (sql_code : string) :
  Py.startswith (Py.lower sql_code) "select" = false ->
  match_alternatives_ignorecase drained_keywords sql_code = false ->
  query_cursor c sql_code = (c1 ← execute sql_code c; Ok (Nothing, c1)).
Proof. intros Hsel Halt. unfold query_cursor. now rewrite Hsel, Halt. Qed.

(** C7, as amended: after executing the statement, [query_cursor] fetches
    and returns all rows when the text begins with [select], and fetches
    one row when it begins with [insert], [create], [truncate], [drop] or
    [explain], in any mix of cases. A mutating statement that begins
    otherwise is left undrained: [DELETE FROM t], [UPDATE t SET x = 1] and
    an [INSERT] after a leading blank are executed and nothing is
    fetched. *)
Theorem query_cursor_fetch_by_keyword (c : C) (sql_code : string) :
  (begins_with_keyword "select" sql_code ->
   query_cursor c sql_code
   = (c1 ← execute sql_code c;
      rc ← fetchall c1;
      Ok (AllRows (fst rc), snd rc)))
  /\ (begins_with_keyword "insert" sql_code
      \/ begins_with_keyword "create" sql_code
      \/ begins_with_keyword "truncate" sql_code
      \/ begins_with_keyword "drop" sql_code
      \/ begins_with_keyword "explain" sql_code ->
      query_cursor c sql_code
      = (c1 ← execute sql_code c;
         rc ← fetchone c1;
         Ok (OneRow (fst rc), snd rc)))
  /\ (sql_code = "DELETE FROM t"
      \/ sql_code = "UPDATE t SET x = 1"
      \/ sql_code = " INSERT INTO t VALUES (1)" ->
      query_cursor c sql_code = (c1 ← execute sql_code c; Ok (Nothing, c1))).
Proof.
  split; [| split].
  - intros Hsel. unfold query_cursor. now rewrite (select_startswith _ Hsel).
  - assert (Hone : forall kw, In kw ["insert"; "create"; "truncate"; "drop"; "explain"] ->
                   begins_with_keyword kw sql_code ->
                   query_cursor c sql_code
                   = (c1 ← execute sql_code c;
                      rc ← fetchone c1;
                      Ok (OneRow (fst rc), snd rc))).
    { intros kw Hin Hkw. unfold query_cursor.
      now rewrite (drained_not_select _ _ Hin Hkw), (drained_matches _ _ Hin Hkw). }
    intros [Hkw | [Hkw | [Hkw | [Hkw | Hkw]]]];
      eapply Hone; try exact Hkw; simpl; tauto.
  - intros [-> | [-> | ->]]; now apply no_keyword_no_fetch.
Qed.

End QueryCursor.

Lemma query_cursor_fetch_by_keyword_witness :
  let c := {| pending := [["1"]; ["2"]]; calls := [] |} in
  (begins_with_keyword "select" "SELECT id FROM t"
   /\ query_cursor c "SELECT id FROM t"
      = Ok (AllRows [["1"]; ["2"]],
            {| pending := [];
               calls := [CallExecute "SELECT id FROM t"; CallFetchall] |}))
  /\ (begins_with_keyword "drop" "Drop TABLE t"
      /\ query_cursor c "Drop TABLE t"
         = Ok (OneRow (Some ["1"]),
               {| pending := [["2"]];
                  calls := [CallExecute "Drop TABLE t"; CallFetchone] |}))
  /\ query_cursor c "UPDATE t SET x = 1"
     = Ok (Nothing,
           {| pending := [["1"]; ["2"]];
              calls := [CallExecute "UPDATE t SET x = 1"] |}).
Proof.
  assert (Hsel : begins_with_keyword "select" "SELECT id FROM t")
    by (exists "SELECT", " id FROM t"; split; reflexivity).
  assert (Hdrop : begins_with_keyword "drop" "Drop TABLE t")
    by (exists "Drop", " TABLE t"; split; reflexivity).
  intros c. split; [split; [exact Hsel |] | split; [split; [exact Hdrop |] |]].
  - destruct (query_cursor_fetch_by_keyword c "SELECT id FROM t") as (Hall & _ & _).
    rewrite (Hall Hsel). reflexivity.
  - destruct (query_cursor_fetch_by_keyword c "Drop TABLE t") as (_ & Hone & _).
    rewrite (Hone (or_intror (or_intror (or_intror (or_introl Hdrop))))).
    reflexivity.
  - destruct (query_cursor_fetch_by_keyword c "UPDATE t SET x = 1") as (_ & _ & Hnone).
    rewrite (Hnone (or_intror (or_introl eq_refl))). reflexivity.
Defined.

(** C7, as stated, fails on mutating statements outside the five kinds: a
    [DELETE], and an [INSERT] written after a blank, are executed and the
    cursor is asked for no row. *)
Lemma query_cursor_leaves_undrained :
  let c := {| pending := [["1"]]; calls := [] |} in
  query_cursor c "DELETE FROM t"
  = Ok (Nothing, {| pending := [["1"]]; calls := [CallExecute "DELETE FROM t"] |})
  /\ query_cursor c " INSERT INTO t VALUES (1)"
     = Ok (Nothing,
           {| pending := [["1"]];
              calls := [CallExecute " INSERT INTO t VALUES (1)"] |})
  /\ ~ (exists rows c',
          query_cursor c "DELETE FROM t" = Ok (OneRow rows, c'))
  /\ ~ (exists rows c',
          query_cursor c " INSERT INTO t VALUES (1)" = Ok (OneRow rows, c')).
Proof.
  repeat split; intros (rows & c' & Hq); discriminate Hq.
Qed.

(** ** The regular-expression matcher *)

Section RegexFacts.

Lemma strip_prefix_inv (p s s' : string) :
  Re.strip_prefix p s = Some s' -> s = p ++ s'.
Proof.
  revert s; induction p as [|a p IH]; intros s Hs; simpl in *.
  - now injection Hs as ->.
  - destruct s as [|b s]; [discriminate |].
    destruct (Ascii.eqb_spec a b) as [-> |]; [| discriminate].
    now rewrite (IH _ Hs).
Qed.

Lemma strip_prefix_append (p s : string) : Re.strip_prefix p (p ++ s) = Some s.
Proof.
  induction p as [|a p IH]; simpl; [reflexivity |].
  now rewrite Ascii.eqb_refl.
Qed.

Lemma first_some_inv {A B : Type} (f : A -> option B) (l : list A) (y : B) :
  Re.first_some f l = Some y -> exists x, In x l /\ f x = Some y.
Proof.
  induction l as [|x l IH]; simpl; [discriminate |].
  destruct (f x) as [y'|] eqn:Hfx.
  - intros [= <-]. eauto.
  - intros Hl. destruct (IH Hl) as (x' & Hin & Hx'). eauto.
Qed.

Lemma first_some_app {A B : Type} (f : A -> option B) (l1 l2 : list A) :
  Re.first_some f (l1 ++ l2)
  = match Re.first_some f l1 with
    | Some y => Some y
    | None => Re.first_some f l2
    end.
Proof.
  induction l1 as [|x l1 IH]; simpl; [reflexivity |].
  destruct (f x); [reflexivity | exact IH].
Qed.

Lemma plus_splits_inv (cls : ascii -> bool) (s g rest : string) :
  In (g, rest) (Re.plus_splits cls s) ->
  s = g ++ rest /\ (0 < String.length g)%nat.
Proof.
  revert g rest; induction s as [|a s IH]; intros g rest; simpl; [tauto |].
  destruct (cls a); [| simpl; tauto].
  rewrite in_app_iff, in_map_iff. intros [((g' & rest') & Heq & Hin) | [Heq | []]].
  - injection Heq as <- <-. destruct (IH _ _ Hin) as [-> _].
    simpl. split; [reflexivity | lia].
  - injection Heq as <- <-. simpl. split; [reflexivity | lia].
Qed.

Lemma first_some_push (k : string -> option (list string)) (a : ascii)
    (l : list (string * string)) :
  Re.first_some
    (fun gr => match k (snd gr) with
               | Some gs => Some (fst gr :: gs)
               | None => None
               end)
    (List.map (fun gr => (String a (fst gr), snd gr)) l)
  = option_map (Re.push_front a)
      (Re.first_some
         (fun gr => match k (snd gr) with
                    | Some gs => Some (fst gr :: gs)
                    | None => None
                    end) l).
Proof.
  induction l as [|[g rest] l IH]; simpl; [reflexivity |].
  destruct (k rest); [reflexivity | exact IH].
Qed.

Lemma match_end_lit (text : string) (r : Re.regex) (s : string) :
  Re.match_end (Re.Lit text :: r) s
  = match Re.strip_prefix text s with
    | Some s' => Re.match_end r s'
    | None => None
    end.
Proof. reflexivity. Qed.

Lemma match_end_plus (c : Re.cclass) (r : Re.regex) (s : string) :
  Re.match_end (Re.GroupPlus c :: r) s
  = Re.first_some
      (fun gr => match Re.match_end r (snd gr) with
                 | Some gs => Some (fst gr :: gs)
                 | None => None
                 end)
      (Re.plus_splits (Re.test c) s).
Proof. reflexivity. Qed.

Lemma plus_splits_cons (cls : ascii -> bool) (a : ascii) (s : string) :
  cls a = true ->
  Re.plus_splits cls (String a s)
  = (List.map (fun gr => (String a (fst gr), snd gr)) (Re.plus_splits cls s)
       ++ [(String a EmptyString, s)])%list.
Proof. intros Ha. simpl. now rewrite Ha. Qed.

(** A greedy [(.+)] followed by a closing character and the end of the
    string captures everything before that closing character. *)
Lemma dot_group_until_close (z : ascii) (inner : string) :
  Re.test Re.Dot z = true ->
  (0 < String.length inner)%nat -> Re.all_in Re.Dot inner = true ->
  Re.match_end [Re.GroupPlus Re.Dot; Re.Lit (String z "")] (inner ++ String z "")
  = Some [inner].
Proof.
  intros Hz. induction inner as [|a inner IH]; intros Hlen Hall;
    [simpl in Hlen; lia |].
  simpl in Hall. apply andb_prop in Hall as [Ha Hall].
  rewrite match_end_plus in *.
  change (String a inner ++ String z "") with (String a (inner ++ String z "")).
  rewrite (plus_splits_cons _ _ _ Ha), first_some_app, first_some_push.
  destruct inner as [|b inner].
  - simpl in Hz |- *. rewrite Hz. simpl. now rewrite Ascii.eqb_refl.
  - rewrite IH; [reflexivity | simpl; lia | exact Hall].
Qed.

Lemma match_closed_group (opening : string) (z : ascii) (inner : string) :
  Re.test Re.Dot z = true ->
  (0 < String.length inner)%nat -> Re.all_in Re.Dot inner = true ->
  Re.match_end [Re.Lit opening; Re.GroupPlus Re.Dot; Re.Lit (String z "")]
    (opening ++ inner ++ String z "")
  = Some [inner].
Proof.
  intros Hz Hlen Hall.
  rewrite match_end_lit, strip_prefix_append.
  now apply dot_group_until_close.
Qed.

(** Whatever [array\((.+)\)] captures is at least seven characters
    shorter than the string it matched. *)
Lemma array_group_shorter (s : string) (m : list string) :
  Re.match_end [Re.Lit "array("; Re.GroupPlus Re.Dot; Re.Lit ")"] s = Some m ->
  exists g, m = [g] /\ (String.length g + 7 <= String.length s)%nat.
Proof.
  rewrite match_end_lit.
  destruct (Re.strip_prefix "array(" s) as [s'|] eqn:Hpre; [| discriminate].
  apply strip_prefix_inv in Hpre as ->.
  rewrite match_end_plus. intros Hm.
  apply first_some_inv in Hm as ([g rest] & Hin & Hk).
  apply plus_splits_inv in Hin as [-> Hg]. cbn [fst snd] in Hk.
  rewrite match_end_lit in Hk.
  destruct (Re.strip_prefix ")" rest) as [rest'|] eqn:Hclose; [| discriminate].
  apply strip_prefix_inv in Hclose as ->.
  cbn [Re.match_end] in Hk.
  destruct (Re.at_end rest'); [| discriminate].
  injection Hk as <-. exists g. split; [reflexivity |].
  rewrite !length_append. simpl. lia.
Qed.

End RegexFacts.

(** ** The type parser *)

(** Splits a hypothesis [x ← r; k = Ok t] into the value of [r] and the
    equation for the continuation. *)
Ltac bind_ok H :=
  match type of H with
  | mbind _ ?r = Ok _ =>
      let E := fresh "E" in
      destruct r eqn:E; cbn [mbind result_mbind rbind] in H; [| discriminate H]
  end.

Section ParseTypeFacts.

Variable super_parse_type : DbPath -> RawColumnInfo -> result ColType.

Local Abbreviation parse_type_rec := (Dialect.parse_type_rec super_parse_type).
Local Abbreviation parse_type := (Dialect.parse_type super_parse_type).

Lemma array_regexps_inv (s : string) (m : list string)
    (v : ColType -> ColType) (rest : list (list string * (ColType -> ColType))) :
  match_regexps Dialect.array_regexps s = (m, v) :: rest ->
  exists g, m = [g] /\ (String.length g + 7 <= String.length s)%nat.
Proof.
  unfold Dialect.array_regexps. cbn [match_regexps].
  destruct (Re.match_end _ s) as [m'|] eqn:Hm; [| discriminate].
  intros [= <- _ _]. now apply array_group_shorter.
Qed.

Lemma timestamp_regexps_cls (s : string) (m : list string)
    (t_cls : Z -> bool -> ColType)
    (rest : list (list string * (Z -> bool -> ColType))) :
  match_regexps Dialect.timestamp_regexps s = (m, t_cls) :: rest ->
  t_cls = Timestamp \/ t_cls = TimestampTZ.
Proof.
  unfold Dialect.timestamp_regexps. cbn [match_regexps].
  destruct (Re.match_end _ s); [intros [= _ <- _]; now left |].
  destruct (Re.match_end _ s); [intros [= _ <- _]; now right | discriminate].
Qed.

Lemma number_regexps_cls (s : string) (m : list string) (n_cls : Z -> ColType)
    (rest : list (list string * (Z -> ColType))) :
  match_regexps Dialect.number_regexps s = (m, n_cls) :: rest -> n_cls = Decimal.
Proof.
  unfold Dialect.number_regexps. cbn [match_regexps].
  destruct (Re.match_end _ s); [intros [= _ <- _]; reflexivity | discriminate].
Qed.

Lemma string_regexps_cls (s : string) (m : list string) (n_cls : ColType)
    (rest : list (list string * ColType)) :
  match_regexps Dialect.string_regexps s = (m, n_cls) :: rest -> n_cls = Text.
Proof.
  unfold Dialect.string_regexps. cbn [match_regexps].
  destruct (Re.match_end _ s); [intros [= _ <- _]; reflexivity |].
  destruct (Re.match_end _ s); [intros [= _ <- _]; reflexivity | discriminate].
Qed.

(** Any two depths above the length of the type string give the same
    result: the depth bound is never what stops the parser. *)
Lemma parse_type_rec_enough (n m : nat) (table_path : DbPath) (info : RawColumnInfo) :
  (String.length (data_type info) < n)%nat ->
  (String.length (data_type info) < m)%nat ->
  parse_type_rec n table_path info = parse_type_rec m table_path info.
Proof.
  revert m info; induction n as [|n IH]; intros m info Hn Hm; [lia |].
  destruct m as [|m]; [lia |].
  cbn [Dialect.parse_type_rec].
  destruct (match_regexps Dialect.timestamp_regexps _) as [|[? ?] ?]; [| reflexivity].
  destruct (match_regexps Dialect.number_regexps _) as [|[? ?] ?]; [| reflexivity].
  destruct (match_regexps Dialect.array_regexps _) as [|[gs ?] ?] eqn:Harr.
  - reflexivity.
  - apply array_regexps_inv in Harr as (g & -> & Hg).
    cbn [Re.group Py.index nth_error Nat.sub mbind result_mbind rbind].
    rewrite (IH m (evolve_data_type info g)); [reflexivity | simpl; lia ..].
Qed.

(** [parse_type] satisfies the recursive equation of the source. *)
Lemma parse_type_unfold (table_path : DbPath) (info : RawColumnInfo) :
  parse_type table_path info
  = match match_regexps Dialect.timestamp_regexps (data_type info) with
    | (m, t_cls) :: _ =>
        g ← Re.group m 1;
        precision ← Py.int g;
        Ok (t_cls precision Dialect.ROUNDS_ON_PREC_LOSS)
    | [] =>
    match match_regexps Dialect.number_regexps (data_type info) with
    | (m, n_cls) :: _ =>
        ps ← Dialect.int_pair m;
        Ok (n_cls (snd ps))
    | [] =>
    match match_regexps Dialect.array_regexps (data_type info) with
    | (m, _) :: _ =>
        g ← Re.group m 1;
        item_type ← parse_type table_path (evolve_data_type info g);
        Ok (Array item_type)
    | [] =>
    match match_regexps Dialect.struct_regexps (data_type info) with
    | (m, _) :: _ =>
        g ← Re.group m 1;
        Ok (Struct (Dialect.struct_fields g))
    | [] =>
    match match_regexps Dialect.string_regexps (data_type info) with
    | (m, n_cls) :: _ => Ok n_cls
    | [] => super_parse_type table_path info
    end end end end end.
Proof.
  unfold Dialect.parse_type. cbn [Dialect.parse_type_rec].
  destruct (match_regexps Dialect.timestamp_regexps _) as [|[? ?] ?]; [| reflexivity].
  destruct (match_regexps Dialect.number_regexps _) as [|[? ?] ?]; [| reflexivity].
  destruct (match_regexps Dialect.array_regexps _) as [|[gs ?] ?] eqn:Harr;
    [reflexivity |].
  apply array_regexps_inv in Harr as (g & -> & Hg).
  cbn [Re.group Py.index nth_error Nat.sub mbind result_mbind rbind].
  rewrite (parse_type_rec_enough _ (S (String.length g)) table_path
             (evolve_data_type info g)); [reflexivity | simpl; lia ..].
Qed.

Lemma parse_type_array (table_path : DbPath) (info : RawColumnInfo) (inner : string) :
  (0 < String.length inner)%nat -> Re.all_in Re.Dot inner = true ->
  data_type info = "array(" ++ inner ++ ")" ->
  parse_type table_path info
  = (item_type ← parse_type table_path (evolve_data_type info inner);
     Ok (Array item_type)).
Proof.
  intros Hlen Hall Hdt. rewrite parse_type_unfold, Hdt.
  change (match_regexps Dialect.timestamp_regexps ("array(" ++ inner ++ ")"))
    with (@nil (list string * (Z -> bool -> ColType))).
  change (match_regexps Dialect.number_regexps ("array(" ++ inner ++ ")"))
    with (@nil (list string * (Z -> ColType))).
  unfold Dialect.array_regexps. cbn [match_regexps].
  rewrite (match_closed_group "array(" ")" inner eq_refl Hlen Hall).
  reflexivity.
Qed.

Lemma parse_type_struct (table_path : DbPath) (info : RawColumnInfo) (inner : string) :
  (0 < String.length inner)%nat -> Re.all_in Re.Dot inner = true ->
  data_type info = "struct<" ++ inner ++ ">" ->
  parse_type table_path info
  = Ok (Struct (List.map (Py.split ":") (Py.split "," inner))).
Proof.
  intros Hlen Hall Hdt. rewrite parse_type_unfold, Hdt.
  change (match_regexps Dialect.timestamp_regexps ("struct<" ++ inner ++ ">"))
    with (@nil (list string * (Z -> bool -> ColType))).
  change (match_regexps Dialect.number_regexps ("struct<" ++ inner ++ ">"))
    with (@nil (list string * (Z -> ColType))).
  change (match_regexps Dialect.array_regexps ("struct<" ++ inner ++ ">"))
    with (@nil (list string * (ColType -> ColType))).
  unfold Dialect.struct_regexps. cbn [match_regexps].
  rewrite (match_closed_group "struct<" ">" inner eq_refl Hlen Hall).
  reflexivity.
Qed.

(** C6, as amended: for [array(T)] the text [T] is parsed by
    [parse_type] itself and the result becomes the item type (a failure
    of that parse is the failure of the whole); for [struct<...>] the
    text between the brackets is split at commas and each piece at
    colons, and the pieces are stored as they are. *)
Theorem parse_type_array_recursive_struct_split
    (table_path : DbPath) (info : RawColumnInfo) (inner : string) :
  (0 < String.length inner)%nat -> Re.all_in Re.Dot inner = true ->
  (data_type info = "array(" ++ inner ++ ")" ->
   parse_type table_path info
   = (item_type ← parse_type table_path (evolve_data_type info inner);
      Ok (Array item_type)))
  /\ (data_type info = "struct<" ++ inner ++ ">" ->
      parse_type table_path info
      = Ok (Struct (List.map (Py.split ":") (Py.split "," inner)))).
Proof.
  intros Hlen Hall. split; intros Hdt.
  - now apply parse_type_array.
  - now apply parse_type_struct.
Qed.

(** What [super().parse_type] must guarantee for its own temporal types. *)
Hypothesis super_rounds :
  forall table_path info t x,
    super_parse_type table_path info = Ok t ->
    In x (temporals t) ->
    get_rounds x = Ok Dialect.ROUNDS_ON_PREC_LOSS.

Lemma parse_type_rec_rounds (depth : nat) :
  forall table_path info t x,
    parse_type_rec depth table_path info = Ok t ->
    In x (temporals t) ->
    get_rounds x = Ok true.
Proof.
  induction depth as [|depth IH]; intros table_path info t x Hparse Hx;
    [discriminate |].
  cbn [Dialect.parse_type_rec] in Hparse.
  destruct (match_regexps Dialect.timestamp_regexps _) as [|[m t_cls] ?] eqn:Hts.
  2: { bind_ok Hparse. bind_ok Hparse. injection Hparse as <-.
       apply timestamp_regexps_cls in Hts as [-> | ->];
         destruct Hx as [<- | []]; reflexivity. }
  destruct (match_regexps Dialect.number_regexps _) as [|[m n_cls] ?] eqn:Hnum.
  2: { bind_ok Hparse. injection Hparse as <-.
       apply number_regexps_cls in Hnum as ->. destruct Hx. }
  destruct (match_regexps Dialect.array_regexps _) as [|[m ?] ?].
  2: { bind_ok Hparse. bind_ok Hparse. injection Hparse as <-.
       simpl in Hx. eapply IH; eassumption. }
  destruct (match_regexps Dialect.struct_regexps _) as [|[m ?] ?].
  2: { bind_ok Hparse. injection Hparse as <-. destruct Hx. }
  destruct (match_regexps Dialect.string_regexps _) as [|[m n_cls] ?] eqn:Hstr.
  2: { injection Hparse as <-. apply string_regexps_cls in Hstr as ->.
       destruct Hx. }
  eapply super_rounds; eassumption.
Qed.

(** C10: every [Timestamp] or [TimestampTZ] in a type that [parse_type]
    returns, at the top or as the item type of nested arrays, has
    [rounds = True], provided the types built by the base dialect's
    parser, to which unmatched type strings are delegated, carry the
    dialect's [ROUNDS_ON_PREC_LOSS]. *)
Theorem parse_type_rounds_true
    (table_path : DbPath) (info : RawColumnInfo) (t x : ColType) :
  parse_type table_path info = Ok t ->
  In x (temporals t) ->
  is_temporal x = true /\ get_rounds x = Ok true.
Proof.
  intros Hparse Hx. split.
  - clear Hparse. induction t; simpl in Hx; try contradiction; auto;
      destruct Hx as [<- | []]; reflexivity.
  - eapply parse_type_rec_rounds; eassumption.
Qed.

End ParseTypeFacts.

Lemma parse_type_array_recursive_struct_split_witness :
  let info := mkRawColumnInfo "c" "array(timestamp(3))" None None None in
  (0 < String.length "timestamp(3)")%nat
  /\ Re.all_in Re.Dot "timestamp(3)" = true
  /\ data_type info = "array(" ++ "timestamp(3)" ++ ")"
  /\ Dialect.parse_type base_parse_type [] info
     = (item_type ← Dialect.parse_type base_parse_type []
                      (evolve_data_type info "timestamp(3)");
        Ok (Array item_type)).
Proof.
  intros info.
  assert (Hlen : (0 < String.length "timestamp(3)")%nat) by (simpl; lia).
  assert (Hall : Re.all_in Re.Dot "timestamp(3)" = true) by reflexivity.
  split; [exact Hlen |]. split; [exact Hall |]. split; [reflexivity |].
  apply (parse_type_array_recursive_struct_split
           base_parse_type [] info "timestamp(3)" Hlen Hall).
  reflexivity.
Defined.

(** C6, as stated, fails for structs: the field types [varchar(3)] and
    [char(5)] both parse to [Text], yet the two struct types differ,
    because each keeps the text of its field type. *)
Lemma parse_type_struct_keeps_field_text :
  let parse := fun s =>
    Dialect.parse_type base_parse_type []
      (mkRawColumnInfo "c" s None None None) in
  parse "varchar(3)" = Ok Text
  /\ parse "char(5)" = Ok Text
  /\ parse "struct<a:varchar(3)>" = Ok (Struct [["a"; "varchar(3)"]])
  /\ parse "struct<a:char(5)>" = Ok (Struct [["a"; "char(5)"]])
  /\ parse "struct<a:varchar(3)>" <> parse "struct<a:char(5)>".
Proof. repeat split. discriminate. Qed.

Lemma base_parse_type_rounds (table_path : DbPath) (info : RawColumnInfo)
    (t x : ColType) :
  base_parse_type table_path info = Ok t ->
  In x (temporals t) ->
  get_rounds x = Ok Dialect.ROUNDS_ON_PREC_LOSS.
Proof.
  unfold base_parse_type.
  destruct (dict_get TYPE_CLASSES (data_type info)) as [[]|];
    intros [= <-] Hx; simpl in Hx; try contradiction;
    destruct Hx as [<- | []]; reflexivity.
Qed.

Lemma parse_type_rounds_true_witness :
  let info :=
    mkRawColumnInfo "c" "array(timestamp(3) with time zone)" None None None in
  Dialect.parse_type base_parse_type [] info = Ok (Array (TimestampTZ 3 true))
  /\ In (TimestampTZ 3 true) (temporals (Array (TimestampTZ 3 true)))
  /\ is_temporal (TimestampTZ 3 true) = true
  /\ get_rounds (TimestampTZ 3 true) = Ok true.
Proof.
  intros info.
  assert (Hparse : Dialect.parse_type base_parse_type [] info
                   = Ok (Array (TimestampTZ 3 true))) by reflexivity.
  assert (Hin : In (TimestampTZ 3 true) (temporals (Array (TimestampTZ 3 true))))
    by (left; reflexivity).
  split; [exact Hparse |]. split; [exact Hin |].
  exact (parse_type_rounds_true base_parse_type base_parse_type_rounds
           [] info _ _ Hparse Hin).
Defined.

(** ** The report projector *)

Section Report.

Import Format.

(** C8: on the wrapper of [test_jsonify_diff] the report is the one the
    test expects: status [success], result [different], one exclusive row
    per side with the key flagged [isPK] and the value not, and one diff
    row whose value is flagged [isDiff] and whose key is not. *)
Theorem jsonify_diff_example :
  jsonify (test_wrapper test_rows) "my_model"
  = Ok {| version := "1.0.0";
          status := "success";
          result_ := "different";
          model := "my_model";
          dataset1 := ["db"; "schema"; "table1"];
          dataset2 := ["db"; "schema"; "table2"];
          rows :=
            {| exclusive :=
                 {| exclusive_dataset1 :=
                      [ [ ("id", {| ex_isPK := true; ex_value := PStr "2" |});
                          ("value", {| ex_isPK := false; ex_value := PStr "4" |}) ] ];
                    exclusive_dataset2 :=
                      [ [ ("id", {| ex_isPK := true; ex_value := PStr "3" |});
                          ("value", {| ex_isPK := false; ex_value := PStr "202" |}) ] ] |};
               rows_diff :=
                 [ [ ("id", {| isPK := true;
                               dataset1_value := PStr "1";
                               dataset2_value := PStr "1";
                               isDiff := false |});
                     ("value", {| isPK := false;
                                  dataset1_value := PStr "3";
                                  dataset2_value := PStr "201";
                                  isDiff := true |}) ] ] |};
          summary := None;
          columns := None |}.
Proof. reflexivity. Qed.

(** C9: a result with no diff rows, over any pair of tables and any
    schema, is reported as [identical], and the two exclusive lists and
    the diff list of the report are empty lists. *)
Theorem jsonify_empty_diff
    (d : DiffResultWrapper) (dbt_model : string)
    (table1 table2 : TableSegment) (more : list TableSegment) :
  tables (info (info_tree d)) = table1 :: table2 :: more ->
  diff (info (info_tree d)) = [] ->
  exists report,
    jsonify d dbt_model = Ok report
    /\ status report = "success"
    /\ result_ report = "identical"
    /\ exclusive_dataset1 (exclusive (rows report)) = []
    /\ exclusive_dataset2 (exclusive (rows report)) = []
    /\ rows_diff (rows report) = [].
Proof.
  intros Htables Hdiff. unfold jsonify. rewrite Htables, Hdiff.
  cbn [Py.index nth_error mbind result_mbind rbind].
  eexists. split; [reflexivity |]. repeat split.
Qed.

End Report.

Lemma jsonify_empty_diff_witness :
  let d := Format.test_wrapper [] in
  Format.diff (Format.info (Format.info_tree d)) = []
  /\ exists report,
       Format.jsonify d "model" = Ok report
       /\ Format.status report = "success"
       /\ Format.result_ report = "identical"
       /\ Format.exclusive_dataset1 (Format.exclusive (Format.rows report)) = []
       /\ Format.exclusive_dataset2 (Format.exclusive (Format.rows report)) = []
       /\ Format.rows_diff (Format.rows report) = [].
Proof.
  intros d. split; [reflexivity |].
  exact (jsonify_empty_diff d "model" _ _ _ eq_refl eq_refl).
Defined.

(** A statement of any other kind is executed and nothing is fetched. *)
Remark query_cursor_other_statement :
  query_cursor {| pending := [["1"]]; calls := [] |} "UPDATE t SET x = 1"
  = Ok (Nothing,
        {| pending := [["1"]]; calls := [CallExecute "UPDATE t SET x = 1"] |}).
Proof. reflexivity. Qed.

(** * Further properties of the adapter *)

(** ** Paths and the schema query *)

Section SchemaQuery.

Variable self : Athena.

(** A normalised path is left as it is by a second normalisation. *)
Theorem normalize_table_path_idempotent (path normalized : DbPath) :
  _normalize_table_path self path = Ok normalized ->
  _normalize_table_path self normalized = Ok normalized.
Proof.
  destruct path as [|c [|s [|t rest]]].
  - rewrite normalize_empty. discriminate.
  - rewrite normalize_one. intros [= <-]. apply normalize_two.
  - rewrite normalize_two. intros [= <-]. apply normalize_two.
  - rewrite normalize_three_or_more. intros [= <-]. apply normalize_two.
Qed.

(** The schema query fails exactly on the empty path, with the error of
    the path normalisation; on any other path it is a [SELECT] over
    [INFORMATION_SCHEMA.COLUMNS] restricted to the normalised table and
    schema. *)
Theorem select_table_schema_cases (path : DbPath) :
  (path = [] /\
   select_table_schema self path
   = Raise (ValueError (bad_table_path_msg self [])))
  \/ (exists schema table,
        _normalize_table_path self path = Ok [schema; table]
        /\ select_table_schema self path
           = Ok ("SELECT column_name, data_type, 3 as datetime_precision, 3 as numeric_precision, NULL as numeric_scale FROM INFORMATION_SCHEMA.COLUMNS WHERE table_name = '"
                   ++ table ++ "' AND table_schema = '" ++ schema ++ "'")).
Proof.
  unfold select_table_schema.
  destruct path as [|c [|s [|t rest]]].
  - left. split; reflexivity.
  - right. rewrite normalize_one. eexists _, _. split; reflexivity.
  - right. rewrite normalize_two. eexists _, _. split; reflexivity.
  - right. rewrite normalize_three_or_more. eexists _, _. split; reflexivity.
Qed.

Lemma select_table_schema_text (path : DbPath) (sql_code : string) :
  select_table_schema self path = Ok sql_code ->
  exists schema table,
    sql_code
    = "SELECT column_name, data_type, 3 as datetime_precision, 3 as numeric_precision, NULL as numeric_scale FROM INFORMATION_SCHEMA.COLUMNS WHERE table_name = '"
        ++ table ++ "' AND table_schema = '" ++ schema ++ "'".
Proof.
  unfold select_table_schema.
  destruct path as [|c [|s [|t rest]]].
  - discriminate.
  - rewrite normalize_one. intros [= <-]. eauto.
  - rewrite normalize_two. intros [= <-]. eauto.
  - rewrite normalize_three_or_more. intros [= <-]. eauto.
Qed.

End SchemaQuery.

Lemma normalize_table_path_idempotent_witness :
  let self := mkAthena "Athena" "public" "Athena()" in
  _normalize_table_path self ["awsdatacatalog"; "sales"; "orders"]
  = Ok ["sales"; "orders"]
  /\ _normalize_table_path self ["sales"; "orders"] = Ok ["sales"; "orders"].
Proof.
  intros self. split; [reflexivity |].
  apply (normalize_table_path_idempotent self
           ["awsdatacatalog"; "sales"; "orders"]).
  reflexivity.
Defined.

(** The default schema set by the constructor: a [schema] option that is
    given and not empty is used as it is; a missing or empty one leaves
    ["public"]; so the default schema is never empty. *)
Theorem init_default_schema_cases (kw : list (string * string)) :
  (forall schema, dict_get kw "schema" = Some schema -> schema <> "" ->
                  init_default_schema kw = schema)
  /\ (dict_get kw "schema" = None \/ dict_get kw "schema" = Some "" ->
      init_default_schema kw = "public")
  /\ init_default_schema kw <> "".
Proof.
  unfold init_default_schema. split; [| split].
  - intros schema -> Hne.
    destruct (String.eqb_spec schema "") as [-> | _]; [congruence | reflexivity].
  - intros [-> | ->]; reflexivity.
  - destruct (dict_get kw "schema") as [schema|]; [| discriminate].
    destruct (String.eqb_spec schema "") as [-> | Hne]; [discriminate | exact Hne].
Qed.

Lemma init_default_schema_cases_witness :
  let kw := [("region_name", "eu-west-1"); ("schema", "sales")] in
  dict_get kw "schema" = Some "sales" /\ "sales" <> ""
  /\ init_default_schema kw = "sales"
  /\ dict_get [("schema", "")] "schema" = Some ""
  /\ init_default_schema [("schema", "")] = "public".
Proof.
  intros kw.
  assert (Hne : "sales" <> "") by discriminate.
  split; [reflexivity |]. split; [exact Hne |].
  split; [exact (proj1 (init_default_schema_cases kw) "sales" eq_refl Hne) |].
  split; [reflexivity |].
  exact (proj1 (proj2 (init_default_schema_cases [("schema", "")]))
           (or_intror eq_refl)).
Defined.

(** ** Statements and the cursor *)

Section CursorFacts.

Context {C Row : Type} `{Cursor C Row}.

Lemma prefix_lower_inv (p s : string) :
  String.prefix p (Py.lower s) = true -> begins_with_keyword p s.
Proof.
  revert s; induction p as [|a p IH]; intros s Hp.
  - exists "", s. split; reflexivity.
  - destruct s as [|b s]; [discriminate |]. simpl in Hp.
    destruct (ascii_dec a (Py.lower_char b)) as [-> |]; [| discriminate].
    destruct (IH _ Hp) as (head & rest & -> & <-).
    exists (String b head), rest. split; reflexivity.
Qed.

Lemma prefix_ignorecase_inv (p s : string) :
  Py.lower p = p -> prefix_ignorecase p s = true -> begins_with_keyword p s.
Proof.
  revert s; induction p as [|a p IH]; intros s Hlow Hp.
  - exists "", s. split; reflexivity.
  - destruct s as [|b s]; [discriminate |]. simpl in Hp, Hlow.
    injection Hlow as Ha Hlow.
    apply andb_prop in Hp as [Hab Hp]. unfold eqb_ignorecase in Hab.
    apply Ascii.eqb_eq in Hab. rewrite Ha in Hab.
    destruct (IH _ Hlow Hp) as (head & rest & -> & Hhead).
    exists (String b head), rest. split; [reflexivity |].
    simpl. now rewrite Hhead, Hab.
Qed.

(** An ASCII statement that begins with none of [select], [insert],
    [create], [truncate], [drop] and [explain], in any mix of cases, is
    executed, nothing is fetched, and the call returns [None]. *)
Theorem query_cursor_fetches_nothing (c : C) (sql_code : string) :
  Py.isascii sql_code = true ->
  ~ begins_with_keyword "select" sql_code ->
  ~ begins_with_keyword "insert" sql_code ->
  ~ begins_with_keyword "create" sql_code ->
  ~ begins_with_keyword "truncate" sql_code ->
  ~ begins_with_keyword "drop" sql_code ->
  ~ begins_with_keyword "explain" sql_code ->
  query_cursor c sql_code = (c1 ← execute sql_code c; Ok (Nothing, c1)).
Proof.
  intros _ Hselect Hinsert Hcreate Htruncate Hdrop Hexplain.
  apply no_keyword_no_fetch.
  - destruct (Py.startswith (Py.lower sql_code) "select") eqn:Hsel; [| reflexivity].
    exfalso. apply Hselect. now apply prefix_lower_inv.
  - destruct (match_alternatives_ignorecase drained_keywords sql_code) eqn:Halt;
      [| reflexivity].
    exfalso. apply existsb_exists in Halt as (kw & Hin & Hkw).
    assert (Hb : begins_with_keyword kw sql_code).
    { apply prefix_ignorecase_inv; [| exact Hkw].
      destruct Hin as [<- | [<- | [<- | [<- | [<- | []]]]]]; reflexivity. }
    destruct Hin as [<- | [<- | [<- | [<- | [<- | []]]]]]; tauto.
Qed.

(** The text built by [explain_as_text] is always drained: run through
    [query_cursor], one row is fetched after the statement is executed. *)
Theorem explain_as_text_is_drained (c : C) (query : string) :
  query_cursor c (Dialect.explain_as_text query)
  = (c1 ← execute (Dialect.explain_as_text query) c;
     rc ← fetchone c1;
     Ok (OneRow (fst rc), snd rc)).
Proof.
  assert (Hkw : begins_with_keyword "explain" (Dialect.explain_as_text query))
    by (exists "EXPLAIN", (" (FORMAT TEXT) " ++ query); split; reflexivity).
  assert (Hin : In "explain" drained_keywords) by (simpl; tauto).
  unfold query_cursor.
  now rewrite (drained_not_select _ _ Hin Hkw), (drained_matches _ _ Hin Hkw).
Qed.

(** The schema query of any non-empty path is a [select]: run through
    [query_cursor], all of its rows are fetched and returned. *)
Theorem select_table_schema_fetches_all
    (self : Athena) (c : C) (path : DbPath) (sql_code : string) :
  select_table_schema self path = Ok sql_code ->
  query_cursor c sql_code
  = (c1 ← execute sql_code c;
     rc ← fetchall c1;
     Ok (AllRows (fst rc), snd rc)).
Proof.
  intros Hq.
  assert (Hsel : begins_with_keyword "select" sql_code).
  { apply select_table_schema_text in Hq as (schema & table & ->).
    eexists "SELECT", _. split; reflexivity. }
  unfold query_cursor. now rewrite (select_startswith _ Hsel).
Qed.

End CursorFacts.

Lemma begins_with_keyword_prefix (kw s : string) :
  begins_with_keyword kw s -> String.prefix kw (Py.lower s) = true.
Proof.
  intros (head & rest & -> & <-). rewrite lower_append. apply prefix_append.
Qed.

Lemma query_cursor_fetches_nothing_witness :
  let c := {| pending := [["1"]]; calls := [] |} in
  let sql_code := "MERGE INTO t USING u ON t.id = u.id" in
  Py.isascii sql_code = true
  /\ ~ begins_with_keyword "select" sql_code
  /\ ~ begins_with_keyword "insert" sql_code
  /\ ~ begins_with_keyword "create" sql_code
  /\ ~ begins_with_keyword "truncate" sql_code
  /\ ~ begins_with_keyword "drop" sql_code
  /\ ~ begins_with_keyword "explain" sql_code
  /\ query_cursor c sql_code
     = Ok (Nothing, {| pending := [["1"]]; calls := [CallExecute sql_code] |}).
Proof.
  intros c sql_code.
  assert (Hnot : forall kw, String.prefix kw (Py.lower sql_code) = false ->
                            ~ begins_with_keyword kw sql_code).
  { intros kw Hpre Hkw. apply begins_with_keyword_prefix in Hkw. congruence. }
  assert (H1 := Hnot "select" eq_refl). assert (H2 := Hnot "insert" eq_refl).
  assert (H3 := Hnot "create" eq_refl). assert (H4 := Hnot "truncate" eq_refl).
  assert (H5 := Hnot "drop" eq_refl). assert (H6 := Hnot "explain" eq_refl).
  repeat (split; [first [reflexivity | assumption] |]).
  rewrite (query_cursor_fetches_nothing c sql_code eq_refl H1 H2 H3 H4 H5 H6).
  reflexivity.
Defined.

Lemma select_table_schema_fetches_all_witness :
  let self := mkAthena "Athena" "public" "Athena()" in
  let c := {| pending := [["id"; "bigint"]]; calls := [] |} in
  exists sql_code,
    select_table_schema self ["orders"] = Ok sql_code
    /\ query_cursor c sql_code
       = Ok (AllRows [["id"; "bigint"]],
             {| pending := []; calls := [CallExecute sql_code; CallFetchall] |}).
Proof.
  intros self c. eexists. split; [reflexivity |].
  rewrite (select_table_schema_fetches_all self c ["orders"] _ eq_refl).
  reflexivity.
Defined.

(** ** More on the matcher *)

Section GroupFacts.

Lemma match_end_group1 (c : Re.cclass) (r : Re.regex) (a : ascii) (s : string) :
  Re.match_end (Re.Group1 c :: r) (String a s)
  = if Re.test c a then
      match Re.match_end r s with
      | Some gs => Some (String a EmptyString :: gs)
      | None => None
      end
    else None.
Proof. reflexivity. Qed.


Lemma plus_splits_all_in (c : Re.cclass) (s g rest : string) :
  In (g, rest) (Re.plus_splits (Re.test c) s) -> Re.all_in c g = true.
Proof.
  revert g rest; induction s as [|a s IH]; intros g rest; simpl; [tauto |].
  destruct (Re.test c a) eqn:Ha; [| simpl; tauto].
  rewrite in_app_iff, in_map_iff.
  intros [((g' & rest') & Heq & Hin) | [Heq | []]]; injection Heq as <- <-; simpl;
    rewrite Ha; [exact (IH _ _ Hin) | reflexivity].
Qed.

Lemma plus_splits_stops (c : Re.cclass) (rest : string) :
  Re.stops c rest -> Re.plus_splits (Re.test c) rest = [].
Proof. destruct rest as [|b rest]; simpl; [reflexivity | now intros ->]. Qed.

(** The first split a greedy group tries is the whole run. *)
Lemma plus_splits_head (c : Re.cclass) (g rest : string) :
  (0 < String.length g)%nat -> Re.all_in c g = true -> Re.stops c rest ->
  exists others, Re.plus_splits (Re.test c) (g ++ rest) = (g, rest) :: others.
Proof.
  intros Hlen Hall Hstop. induction g as [|a g IH]; [simpl in Hlen; lia |].
  simpl in Hall. apply andb_prop in Hall as [Ha Hall].
  change (String a g ++ rest) with (String a (g ++ rest)).
  rewrite (plus_splits_cons _ _ _ Ha).
  destruct g as [|b g].
  - simpl (EmptyString ++ rest). rewrite (plus_splits_stops _ _ Hstop).
    exists []. reflexivity.
  - destruct IH as (others & ->); [simpl; lia | exact Hall |].
    simpl. eexists. reflexivity.
Qed.

(** A greedy group followed by literal text that starts outside the class
    captures the whole run before that text. *)
Lemma match_group_then_lit (c : Re.cclass) (z : ascii) (tail : string)
    (r : Re.regex) (g s : string) (gs : list string) :
  (0 < String.length g)%nat -> Re.all_in c g = true -> Re.test c z = false ->
  Re.match_end r s = Some gs ->
  Re.match_end (Re.GroupPlus c :: Re.Lit (String z tail) :: r)
    (g ++ String z tail ++ s)
  = Some (g :: gs).
Proof.
  intros Hlen Hall Hz Hr. rewrite match_end_plus.
  destruct (plus_splits_head c g (String z tail ++ s) Hlen Hall Hz) as (others & ->).
  cbn [Re.first_some fst snd].
  rewrite match_end_lit, strip_prefix_append, Hr. reflexivity.
Qed.

Lemma int_acc_digits (s : string) (acc : Z) :
  Re.all_in Re.Digit s = true -> exists n, Py.int_acc acc s = Some n.
Proof.
  revert acc; induction s as [|a s IH]; intros acc Hall; simpl in *; [eauto |].
  apply andb_prop in Hall as [Ha Hall]. rewrite Ha. now apply IH.
Qed.

Lemma digit_run_digits (s : string) :
  Re.all_in Re.Digit s = true -> Py.digit_run s = String.length s.
Proof.
  induction s as [|a s IH]; intros Hall; simpl in *; [reflexivity |].
  apply andb_prop in Hall as [Ha Hall]. rewrite Ha. now rewrite IH.
Qed.

Lemma int_digits (s : string) :
  (0 < String.length s)%nat -> (String.length s <= Py.int_max_str_digits)%nat ->
  Re.all_in Re.Digit s = true ->
  exists n, Py.int s = Ok n.
Proof.
  intros Hlen Hmax Hall. destruct s as [|a s]; [simpl in Hlen; lia |].
  unfold Py.int. rewrite (digit_run_digits _ Hall).
  destruct (Nat.ltb_spec Py.int_max_str_digits (String.length (String a s)));
    [lia |].
  destruct (int_acc_digits (String a s) 0 Hall) as (n & ->). eauto.
Qed.

Lemma int_too_long (s : string) :
  (Py.int_max_str_digits < String.length s)%nat ->
  Re.all_in Re.Digit s = true ->
  Py.int s = Raise (ValueError (Py.int_limit_msg (String.length s))).
Proof.
  intros Hmax Hall. destruct s as [|a s]; [simpl in Hmax; lia |].
  unfold Py.int. rewrite (digit_run_digits _ Hall).
  destruct (Nat.ltb_spec Py.int_max_str_digits (String.length (String a s)));
    [reflexivity | lia].
Qed.

Lemma int_one_digit (a : ascii) :
  Py.is_digit a = true -> Py.int (String a "") = Ok (Py.digit_value a).
Proof.
  intros Ha. unfold Py.int, Py.int_acc, Py.digit_run. now rewrite Ha.
Qed.

End GroupFacts.

(** ** More on the type parser *)

Section ParseTypeMore.

Variable super_parse_type : DbPath -> RawColumnInfo -> result ColType.

Local Abbreviation parse_type_rec := (Dialect.parse_type_rec super_parse_type).
Local Abbreviation parse_type := (Dialect.parse_type super_parse_type).

(** The precision of [timestamp(d)] and of [timestamp(d) with time zone]
    is the digit [d] of the type string, whatever the precision hints of
    the column say and without asking the base parser. *)
Theorem parse_type_timestamp_digit
    (table_path : DbPath) (info : RawColumnInfo) (d : ascii) :
  Py.is_digit d = true ->
  (data_type info = "timestamp(" ++ String d ")" ->
   parse_type table_path info = Ok (Timestamp (Py.digit_value d) true))
  /\ (data_type info = "timestamp(" ++ String d ") with time zone" ->
      parse_type table_path info = Ok (TimestampTZ (Py.digit_value d) true)).
Proof.
  intros Hd. split; intros Hdt; rewrite parse_type_unfold, Hdt;
    unfold Dialect.timestamp_regexps; cbn [match_regexps];
    rewrite !match_end_lit; cbn [Re.strip_prefix String.append Ascii.eqb Bool.eqb];
    rewrite !match_end_group1; change (Re.test Re.Digit d) with (Py.is_digit d);
    rewrite Hd;
    cbn [Re.match_end Re.strip_prefix Re.at_end Ascii.eqb Bool.eqb
         Re.group Py.index nth_error Nat.sub mbind result_mbind rbind];
    rewrite (int_one_digit d Hd); reflexivity.
Qed.

Lemma decimal_groups (prec scale : string) :
  (0 < String.length prec)%nat -> Re.all_in Re.Digit prec = true ->
  (0 < String.length scale)%nat -> Re.all_in Re.Digit scale = true ->
  match_regexps Dialect.number_regexps ("decimal(" ++ prec ++ "," ++ scale ++ ")")
  = [([prec; scale], Decimal)].
Proof.
  intros Hp Hpd Hs Hsd.
  unfold Dialect.number_regexps. cbn [match_regexps].
  rewrite match_end_lit, strip_prefix_append.
  rewrite (match_group_then_lit Re.Digit "," "" _ prec (scale ++ ")") [scale]
             Hp Hpd eq_refl); [reflexivity |].
  apply (match_group_then_lit Re.Digit ")" "" [] scale "" [] Hs Hsd eq_refl).
  reflexivity.
Qed.

(** [decimal(P,S)], with [P] and [S] of at most 4300 digits, parses to a
    [Decimal] of the scale [S]: the precision [P] is converted and
    dropped, and the base parser is not asked. When [P] or [S] has more
    than 4300 digits, the conversion with [int] raises [ValueError] and so
    does the parse. *)
Theorem parse_type_decimal_scale
    (table_path : DbPath) (info : RawColumnInfo) (prec scale : string) :
  (0 < String.length prec)%nat -> Re.all_in Re.Digit prec = true ->
  (0 < String.length scale)%nat -> Re.all_in Re.Digit scale = true ->
  data_type info = "decimal(" ++ prec ++ "," ++ scale ++ ")" ->
  ((String.length prec <= 4300)%nat -> (String.length scale <= 4300)%nat ->
   exists n, Py.int scale = Ok n /\ parse_type table_path info = Ok (Decimal n))
  /\ ((4300 < String.length prec)%nat \/ (4300 < String.length scale)%nat ->
      exists msg, parse_type table_path info = Raise (ValueError msg)).
Proof.
  intros Hp Hpd Hs Hsd Hdt.
  assert (Hparse : parse_type table_path info
                   = (ps ← Dialect.int_pair [prec; scale]; Ok (Decimal (snd ps)))).
  { rewrite parse_type_unfold, Hdt.
    change (match_regexps Dialect.timestamp_regexps
              ("decimal(" ++ prec ++ "," ++ scale ++ ")"))
      with (@nil (list string * (Z -> bool -> ColType))).
    now rewrite (decimal_groups prec scale Hp Hpd Hs Hsd). }
  rewrite Hparse. cbn [Dialect.int_pair mbind result_mbind rbind].
  split.
  - intros Hpmax Hsmax.
    destruct (int_digits prec Hp Hpmax Hpd) as (m & ->).
    destruct (int_digits scale Hs Hsmax Hsd) as (n & Hn).
    exists n. rewrite Hn. split; reflexivity.
  - intros [Hlong | Hlong].
    + rewrite (int_too_long prec Hlong Hpd). eauto.
    + destruct (Py.int prec) as [m|e] eqn:Hprec.
      * rewrite (int_too_long scale Hlong Hsd). eauto.
      * destruct (Nat.le_gt_cases (String.length prec) 4300) as [Hle | Hgt].
        -- destruct (int_digits prec Hp Hle Hpd) as (m & Hm). congruence.
        -- rewrite (int_too_long prec Hgt Hpd) in Hprec.
           injection Hprec as <-. eauto.
Qed.

(** [varchar(N)] and [char(N)] parse to [Text] for every length [N]; the
    length is not kept. *)
Theorem parse_type_sized_text
    (table_path : DbPath) (info : RawColumnInfo) (size : string) :
  (0 < String.length size)%nat -> Re.all_in Re.Digit size = true ->
  data_type info = "varchar(" ++ size ++ ")"
  \/ data_type info = "char(" ++ size ++ ")" ->
  parse_type table_path info = Ok Text.
Proof.
  intros Hlen Hall Hdt. rewrite parse_type_unfold.
  assert (Hclose : Re.match_end [Re.GroupPlus Re.Digit; Re.Lit ")"] (size ++ ")")
                   = Some [size]).
  { apply (match_group_then_lit Re.Digit ")" "" [] size "" [] Hlen Hall eq_refl).
    reflexivity. }
  destruct Hdt as [-> | ->].
  - change (match_regexps Dialect.timestamp_regexps ("varchar(" ++ size ++ ")"))
      with (@nil (list string * (Z -> bool -> ColType))).
    change (match_regexps Dialect.number_regexps ("varchar(" ++ size ++ ")"))
      with (@nil (list string * (Z -> ColType))).
    change (match_regexps Dialect.array_regexps ("varchar(" ++ size ++ ")"))
      with (@nil (list string * (ColType -> ColType))).
    change (match_regexps Dialect.struct_regexps ("varchar(" ++ size ++ ")"))
      with (@nil (list string * (list (list string) -> ColType))).
    unfold Dialect.string_regexps. cbn [match_regexps].
    rewrite match_end_lit, strip_prefix_append, Hclose. reflexivity.
  - change (match_regexps Dialect.timestamp_regexps ("char(" ++ size ++ ")"))
      with (@nil (list string * (Z -> bool -> ColType))).
    change (match_regexps Dialect.number_regexps ("char(" ++ size ++ ")"))
      with (@nil (list string * (Z -> ColType))).
    change (match_regexps Dialect.array_regexps ("char(" ++ size ++ ")"))
      with (@nil (list string * (ColType -> ColType))).
    change (match_regexps Dialect.struct_regexps ("char(" ++ size ++ ")"))
      with (@nil (list string * (list (list string) -> ColType))).
    unfold Dialect.string_regexps. cbn [match_regexps].
    change (Re.match_end [Re.Lit "varchar("; Re.GroupPlus Re.Digit; Re.Lit ")"]
              ("char(" ++ size ++ ")")) with (@None (list string)).
    rewrite match_end_lit, strip_prefix_append, Hclose. reflexivity.
Qed.

Lemma count_append (c : ascii) (a b : string) :
  Py.count c (a ++ b) = (Py.count c a + Py.count c b)%nat.
Proof.
  induction a as [|x a IH]; simpl; [reflexivity |].
  destruct (Ascii.eqb x c); simpl; now rewrite IH.
Qed.

Lemma lit_absent (c : ascii) (text : string) (r : Re.regex) (s : string) :
  (0 < Py.count c text)%nat -> Py.count c s = O ->
  Re.match_end (Re.Lit text :: r) s = None.
Proof.
  intros Htext Hs. rewrite match_end_lit.
  destruct (Re.strip_prefix text s) as [s'|] eqn:Hpre; [| reflexivity].
  apply strip_prefix_inv in Hpre as ->. rewrite count_append in Hs. lia.
Qed.

(** A type string with no opening parenthesis and no opening angle
    bracket matches none of the adapter's patterns and is handed to the
    base parser unchanged. *)
Theorem parse_type_plain_name_delegates
    (table_path : DbPath) (info : RawColumnInfo) :
  Py.count "(" (data_type info) = O ->
  Py.count "<" (data_type info) = O ->
  parse_type table_path info = super_parse_type table_path info.
Proof.
  intros Hparen Hangle. rewrite parse_type_unfold.
  unfold Dialect.timestamp_regexps, Dialect.number_regexps,
    Dialect.array_regexps, Dialect.struct_regexps, Dialect.string_regexps.
  cbn [match_regexps].
  repeat match goal with
  | |- context [Re.match_end (Re.Lit ?t :: ?r) ?s] =>
      let H := fresh in
      first
        [ assert (H : (0 < Py.count "(" t)%nat) by (vm_compute; lia);
          rewrite (lit_absent "(" t r s H Hparen); clear H
        | assert (H : (0 < Py.count "<" t)%nat) by (vm_compute; lia);
          rewrite (lit_absent "<" t r s H Hangle); clear H ]
  end.
  reflexivity.
Qed.



End ParseTypeMore.

(** ** Struct fields *)

Section StructFields.

Lemma split_not_nil (sep : ascii) (s : string) : Py.split sep s <> [].
Proof.
  induction s as [|a s IH]; simpl; [discriminate |].
  destruct (Ascii.eqb a sep); [discriminate |].
  destruct (Py.split sep s); discriminate.
Qed.

Lemma join_cons (sep piece : string) (pieces : list string) :
  pieces <> [] ->
  Py.join sep (piece :: pieces) = piece ++ sep ++ Py.join sep pieces.
Proof. destruct pieces; [congruence | reflexivity]. Qed.

(** Joining the pieces of a split with the separator gives the string
    back. *)
Lemma join_split (sep : ascii) (s : string) :
  Py.join (String sep "") (Py.split sep s) = s.
Proof.
  induction s as [|a s IH]; [reflexivity |].
  cbn [Py.split]. destruct (Ascii.eqb_spec a sep) as [-> | Hne].
  - rewrite join_cons by apply split_not_nil. now rewrite IH.
  - pose proof (split_not_nil sep s) as Hnil.
    destruct (Py.split sep s) as [|piece pieces]; [congruence |].
    destruct pieces as [|piece' pieces].
    + simpl in *. now rewrite IH.
    + rewrite join_cons by discriminate.
      rewrite join_cons in IH by discriminate.
      rewrite <- IH. reflexivity.
Qed.

Lemma split_length (sep : ascii) (s : string) :
  List.length (Py.split sep s) = S (Py.count sep s).
Proof.
  induction s as [|a s IH]; [reflexivity |].
  cbn [Py.split Py.count]. destruct (Ascii.eqb a sep); simpl; [now rewrite IH |].
  destruct (Py.split sep s); simpl in *; [discriminate | exact IH].
Qed.

(** The fields of a struct keep all of its text: joining the pieces of
    each field with [:] and the fields with [,] gives back what stood
    between the angle brackets. *)
Theorem struct_fields_join (text : string) :
  Py.join "," (List.map (Py.join ":") (Dialect.struct_fields text)) = text.
Proof.
  unfold Dialect.struct_fields. rewrite List.map_map.
  rewrite (List.map_ext _ (fun f => f) (fun f => join_split ":" f)).
  rewrite List.map_id. apply (join_split ",").
Qed.

Lemma split_pieces_clean (sep : ascii) (s : string) :
  Forall (fun piece => Py.count sep piece = O) (Py.split sep s).
Proof.
  induction s as [|a s IH]; [repeat constructor |].
  cbn [Py.split]. destruct (Ascii.eqb a sep) eqn:Ha; [now constructor |].
  destruct (Py.split sep s) as [|piece pieces]; [repeat constructor; simpl; now rewrite Ha |].
  inversion IH as [|? ? Hpiece Hpieces]; subst.
  constructor; [simpl; now rewrite Ha | exact Hpieces].
Qed.

Lemma split_pieces_keep (c sep : ascii) (s : string) :
  Py.count c s = O ->
  Forall (fun piece => Py.count c piece = O) (Py.split sep s).
Proof.
  induction s as [|a s IH]; intros Hc; [repeat constructor |].
  cbn [Py.split]. simpl in Hc.
  destruct (Ascii.eqb a c) eqn:Hac; [discriminate |].
  specialize (IH Hc).
  destruct (Ascii.eqb a sep); [now constructor |].
  destruct (Py.split sep s) as [|piece pieces];
    [repeat constructor; simpl; now rewrite Hac |].
  inversion IH as [|? ? Hpiece Hpieces]; subst.
  constructor; [simpl; now rewrite Hac | exact Hpieces].
Qed.

(** A struct gets one field more than its text has commas; every field
    has at least one piece, and no piece holds a comma or a colon. So a
    comma or a colon inside a field type, as in [decimal(10,2)], cuts that
    field. *)
Theorem struct_fields_count (text : string) :
  List.length (Dialect.struct_fields text) = S (Py.count "," text)
  /\ Forall (fun field =>
               field <> []
               /\ Forall (fun piece => Py.count ":" piece = O
                                       /\ Py.count "," piece = O) field)
       (Dialect.struct_fields text).
Proof.
  unfold Dialect.struct_fields. split.
  - now rewrite List.length_map, split_length.
  - apply Forall_map.
    eapply Forall_impl; [apply (split_pieces_clean "," text) |].
    intros f Hf. simpl. split; [apply split_not_nil |].
    pose proof (split_pieces_clean ":" f) as Hcolon.
    pose proof (split_pieces_keep "," ":" f Hf) as Hcomma.
    clear Hf. induction Hcolon as [|piece pieces Hp _ IH]; [constructor |].
    inversion Hcomma; subst. constructor; [now split | now apply IH].
Qed.

End StructFields.

Lemma parse_type_timestamp_digit_witness :
  let info := mkRawColumnInfo "created_at" "timestamp(6)" (Some 3) (Some 3) None in
  Py.is_digit "6" = true
  /\ data_type info = "timestamp(" ++ String "6" ")"
  /\ Dialect.parse_type base_parse_type ["sales"; "orders"] info
     = Ok (Timestamp (Py.digit_value "6") true).
Proof.
  intros info. split; [reflexivity |]. split; [reflexivity |].
  apply (parse_type_timestamp_digit base_parse_type ["sales"; "orders"] info "6"
           eq_refl).
  reflexivity.
Defined.

Lemma parse_type_decimal_scale_witness :
  let info := mkRawColumnInfo "price" "decimal(10,2)" (Some 3) (Some 3) None in
  (0 < String.length "10")%nat /\ Re.all_in Re.Digit "10" = true
  /\ (0 < String.length "2")%nat /\ Re.all_in Re.Digit "2" = true
  /\ data_type info = "decimal(" ++ "10" ++ "," ++ "2" ++ ")"
  /\ (String.length "10" <= 4300)%nat /\ (String.length "2" <= 4300)%nat
  /\ exists n, Py.int "2" = Ok n
               /\ Dialect.parse_type base_parse_type [] info = Ok (Decimal n).
Proof.
  intros info.
  assert (Hp : (0 < String.length "10")%nat) by (simpl; lia).
  assert (Hs : (0 < String.length "2")%nat) by (simpl; lia).
  assert (Hpmax : (String.length "10" <= 4300)%nat) by (simpl; lia).
  assert (Hsmax : (String.length "2" <= 4300)%nat) by (simpl; lia).
  split; [exact Hp |]. split; [reflexivity |].
  split; [exact Hs |]. split; [reflexivity |]. split; [reflexivity |].
  split; [exact Hpmax |]. split; [exact Hsmax |].
  exact (proj1 (parse_type_decimal_scale base_parse_type [] info "10" "2"
                  Hp eq_refl Hs eq_refl eq_refl) Hpmax Hsmax).
Defined.

Lemma parse_type_sized_text_witness :
  let info := mkRawColumnInfo "code" "char(3)" None None None in
  (0 < String.length "3")%nat /\ Re.all_in Re.Digit "3" = true
  /\ data_type info = "char(" ++ "3" ++ ")"
  /\ Dialect.parse_type base_parse_type [] info = Ok Text.
Proof.
  intros info.
  assert (Hlen : (0 < String.length "3")%nat) by (simpl; lia).
  split; [exact Hlen |]. split; [reflexivity |]. split; [reflexivity |].
  exact (parse_type_sized_text base_parse_type [] info "3" Hlen eq_refl
           (or_intror eq_refl)).
Defined.

Lemma parse_type_plain_name_delegates_witness :
  let info := mkRawColumnInfo "id" "bigint" None (Some 3) None in
  Py.count "(" (data_type info) = O
  /\ Py.count "<" (data_type info) = O
  /\ Dialect.parse_type base_parse_type [] info = base_parse_type [] info.
Proof.
  intros info. split; [reflexivity |]. split; [reflexivity |].
  exact (parse_type_plain_name_delegates base_parse_type [] info eq_refl eq_refl).
Defined.


(** ** The order of cursor calls *)

(** Whatever the statement, [query_cursor] asks the cursor to execute it
    once, first, and then makes at most one fetch: all rows, one row, or
    none. *)
Theorem query_cursor_call_order (c : LogCursor) (sql_code : string) :
  exists r c',
    query_cursor c sql_code = Ok (r, c')
    /\ ((r = AllRows (pending c) /\ pending c' = []
         /\ calls c' = (calls c ++ [CallExecute sql_code; CallFetchall])%list)
        \/ (r = OneRow (head (pending c)) /\ pending c' = tail (pending c)
            /\ calls c' = (calls c ++ [CallExecute sql_code; CallFetchone])%list)
        \/ (r = Nothing /\ pending c' = pending c
            /\ calls c' = (calls c ++ [CallExecute sql_code])%list)).
Proof.
  unfold query_cursor.
  cbn [execute fetchall fetchone LogCursor_Cursor mbind result_mbind rbind].
  destruct (Py.startswith (Py.lower sql_code) "select").
  - eexists _, _. split; [reflexivity |]. left.
    cbn [fst snd pending calls]. now rewrite <- app_assoc.
  - destruct (match_alternatives_ignorecase drained_keywords sql_code).
    + eexists _, _. split; [reflexivity |]. right; left.
      cbn [fst snd pending calls]. now rewrite <- app_assoc.
    + eexists _, _. split; [reflexivity |]. right; right.
      cbn [fst snd pending calls]. auto.
Qed.
